(** * Mask-Detection: the Flask inference service of [app.py]

    A shallow embedding of [app.py]:
    - the certificate provisioning run at import time
      ([generate_self_signed_cert] and the guard of lines 69-70),
    - the [/detect] request handler ([detect], lines 79-107).

    The program is glue over Flask, Pillow, NumPy, Keras and the
    [cryptography] package.  Statements that the program executes are
    written out as they are in the source, in a state-and-exception monad
    over the part of the world the program touches (the files in the working
    directory, the UTC clock, the OS entropy source).  Calls into the
    libraries are taken from an environment record: what a library computes
    is opaque, what its result looks like (the mode and size of an image, the
    fields of a certificate) follows the library's documented contract. *)

From Stdlib Require Import ZArith List String Bool Lia.
From Stdlib Require Import Floats.SpecFloat.
From stdpp Require Import gmap strings list.

Set Default Proof Using "Type".
#[local] Set Warnings "-register-all".

(* ================================================================== *)
(** * Python runtime: exceptions and results *)
(* ================================================================== *)

(** The classes of the exceptions the program can meet.  All of them derive
    from Python's [Exception]; [exn] is the type of instances of [Exception],
    which is what the clause [except Exception as e] of [detect] binds.  The
    interpreter-exit signals ([SystemExit], [KeyboardInterrupt]) are not
    raised by any call of the program and are not values of this type. *)
Inductive exc_class :=
| KeyError
| TypeError
| ValueError
| IndexError
| BinasciiError
| UnidentifiedImageError
| OSError
| BadRequest
| UnsupportedMediaType
| LibraryError (name : string).

(** An exception instance: its class and the text [str(e)] gives for it. *)
Record exn := Exc { exc_type : exc_class; exc_text : string }.

(** [str(e)] *)
Definition str (e : exn) : string := exc_text e.

(** [repr] of a string without quotes or escapes, as for the key
    ["image"]: the string between single quotes. *)
Definition repr_str (s : string) : string := "'" +:+ s +:+ "'".

(** [KeyError(key)]: [str] of a [KeyError] with one argument is the [repr]
    of that argument. *)
Definition mkKeyError (key : string) : exn := Exc KeyError (repr_str key).

(** The outcome of evaluating a Python expression or statement. *)
Inductive result (A : Type) :=
| Ok (a : A)
| Raise (e : exn).
Arguments Ok {A} a.
Arguments Raise {A} e.

(* ================================================================== *)
(** * Data of the [cryptography] package *)
(* ================================================================== *)

(** [serialization.Encoding] *)
Inductive Encoding := PEM | DER.

(** [serialization.PrivateFormat] *)
Inductive PrivateFormat := TraditionalOpenSSL | PKCS8.

(** [serialization.KeySerializationEncryption] *)
Inductive KeyEncryption := NoEncryption | BestAvailableEncryption (password : list Byte.byte).

(** [hashes.HashAlgorithm] *)
Inductive HashAlgorithm := SHA1 | SHA256 | SHA512.

(** [NameOID] *)
Inductive NameOID :=
| COUNTRY_NAME
| STATE_OR_PROVINCE_NAME
| LOCALITY_NAME
| ORGANIZATION_NAME
| COMMON_NAME.

#[global] Instance NameOID_eq_dec : EqDecision NameOID.
Proof. solve_decision. Defined.

(** [x509.NameAttribute(oid, value)] and [x509.Name([...])] *)
Record NameAttribute := mkNameAttribute { attr_oid : NameOID; attr_value : string }.
Definition Name := list NameAttribute.

(** [name.get_attributes_for_oid(oid)], as values *)
Definition get_attributes_for_oid (n : Name) (oid : NameOID) : list string :=
  attr_value <$> filter (fun a => attr_oid a = oid) n.

(** An RSA private key: the parameters it was generated with and the secret
    material drawn from the entropy source. *)
Record PrivateKey := mkPrivateKey {
  public_exponent : Z;
  key_size : Z;
  secret : Z
}.

(** [key.public_key()] *)
Inductive PublicKey := PublicKeyOf (k : PrivateKey).

(** [x509.GeneralName], [x509.SubjectAlternativeName] *)
Inductive GeneralName := DNSName (host : string).
Inductive Extension := SubjectAlternativeName (names : list GeneralName).

(** [datetime] values are microseconds since the epoch (the resolution of
    [datetime]); [timedelta(days=n)] is a number of microseconds. *)
Definition datetime := Z.
Definition timedelta_days (n : Z) : Z := (n * 86400 * 1000000)%Z.

(** X.509 times have a resolution of one second: when a certificate is
    encoded, the microseconds of a [datetime] are dropped. *)
Definition drop_microseconds (t : datetime) : datetime := (t - t mod 1000000)%Z.

(** [x509.CertificateBuilder]: every field starts unset. *)
Record CertificateBuilder := mkBuilder {
  b_subject : option Name;
  b_issuer : option Name;
  b_public_key : option PublicKey;
  b_serial : option Z;
  b_not_valid_before : option datetime;
  b_not_valid_after : option datetime;
  b_extensions : list (Extension * bool)
}.

(** [x509.Certificate]: the builder's fields, the key that signed it and the
    hash of the signature. *)
Record Certificate := mkCertificate {
  subject : Name;
  issuer : Name;
  cert_public_key : PublicKey;
  serial_number_of : Z;
  not_valid_before_of : datetime;
  not_valid_after_of : datetime;
  extensions : list (Extension * bool);
  signed_by : PrivateKey;
  signature_hash_algorithm : HashAlgorithm
}.

(** Byte strings.  The serialisations of keys and certificates are kept
    symbolic: [KeyBytes k e f a] is the value of
    [k.private_bytes(encoding=e, format=f, encryption_algorithm=a)] and
    [CertBytes c e] the value of [c.public_bytes(e)]. *)
Inductive pybytes :=
| Bytes (l : list Byte.byte)
| KeyBytes (k : PrivateKey) (e : Encoding) (f : PrivateFormat) (a : KeyEncryption)
| CertBytes (c : Certificate) (e : Encoding).

(* ================================================================== *)
(** * The world and the monad of statements *)
(* ================================================================== *)

(** What the program reads and writes outside its own variables: the files of
    the working directory, and how many times the clock and the entropy
    source have been read. *)
Record World := mkWorld {
  files : gmap string pybytes;
  clock_reads : nat;
  rng_draws : nat
}.

(** The calls that can fail for reasons outside the program. *)
Inductive Step :=
| CallLib (fn : string)
| OpenFile (path : string)
| WriteFile (path : string).

(** The platform a run of the program meets: the successive readings of the
    UTC clock, the successive draws of the entropy source, and which calls
    fail, with what exception. *)
Record Platform := mkPlatform {
  clock : nat -> datetime;
  entropy : nat -> Z;
  fault : Step -> option exn
}.

(** Statements: a world in, an outcome and a world out. *)
Definition M (A : Type) : Type := World -> result A * World.

Definition ret {A} (a : A) : M A := fun w => (Ok a, w).

Definition raise {A} (e : exn) : M A := fun w => (Raise e, w).

Definition bind {A B} (m : M A) (k : A -> M B) : M B :=
  fun w => match m w with
           | (Ok a, w') => k a w'
           | (Raise e, w') => (Raise e, w')
           end.

(** The outcome of a call that does not touch the world. *)
Definition lift {A} (r : result A) : M A := fun w => (r, w).

(** [try: body  except Exception as e: handler(e)] *)
Definition try_except {A} (body : M A) (handler : exn -> M A) : M A :=
  fun w => match body w with
           | (Ok a, w') => (Ok a, w')
           | (Raise e, w') => handler e w'
           end.

Declare Scope py_scope.
Delimit Scope py_scope with py.
Notation "x <- c1 ;; c2" := (bind c1 (fun x => c2))
  (at level 100, c1 at next level, right associativity) : py_scope.
Notation "c1 ;;; c2" := (bind c1 (fun _ => c2))
  (at level 100, right associativity) : py_scope.
Open Scope py_scope.

(* ================================================================== *)
(** * Certificate provisioning ([app.py], lines 37-70) *)
(* ================================================================== *)

Section Provisioning.
Variable P : Platform.

(** A call into a library whose arguments the program fixes: it raises when
    the platform says so and returns [v] otherwise. *)
Definition call_lib {A} (fn : string) (v : A) : M A :=
  fun w => match fault P (CallLib fn) with
           | Some e => (Raise e, w)
           | None => (Ok v, w)
           end.

(** [os.path.exists(path)] *)
Definition os_path_exists (path : string) : M bool :=
  fun w => (Ok (bool_decide (is_Some (files w !! path))), w).

(** [open(path, "wb")]: on success the file exists and is empty, whatever it
    held before. *)
Definition open_wb (path : string) : M unit :=
  fun w => match fault P (OpenFile path) with
           | Some e => (Raise e, w)
           | None => (Ok tt, mkWorld (<[path := Bytes []]> (files w)) (clock_reads w) (rng_draws w))
           end.

(** [f.write(data)] followed by the close at the end of the [with] block.
    When it fails the file stays as [open] left it. *)
Definition file_write (path : string) (data : pybytes) : M unit :=
  fun w => match fault P (WriteFile path) with
           | Some e => (Raise e, w)
           | None => (Ok tt, mkWorld (<[path := data]> (files w)) (clock_reads w) (rng_draws w))
           end.

(** [datetime.utcnow()]: one more reading of the clock. *)
Definition utcnow : M datetime :=
  fun w => (Ok (clock P (clock_reads w)), mkWorld (files w) (S (clock_reads w)) (rng_draws w)).

(** One draw from the entropy source. *)
Definition draw : M Z :=
  fun w => (Ok (entropy P (rng_draws w)), mkWorld (files w) (clock_reads w) (S (rng_draws w))).

(** [rsa.generate_private_key(public_exponent=e, key_size=n)] *)
Definition rsa_generate_private_key (e n : Z) : M PrivateKey :=
  call_lib "rsa.generate_private_key" tt ;;;
  s <- draw ;;
  ret (mkPrivateKey e n s).

(** [key.private_bytes(encoding, format, encryption_algorithm)] *)
Definition private_bytes (k : PrivateKey) (e : Encoding) (f : PrivateFormat) (a : KeyEncryption) : M pybytes :=
  call_lib "private_bytes" (KeyBytes k e f a).

(** [key.public_key()] *)
Definition public_key (k : PrivateKey) : PublicKey := PublicKeyOf k.

(** [x509.random_serial_number()] *)
Definition random_serial_number : M Z :=
  call_lib "x509.random_serial_number" tt ;;;
  draw.

(** [x509.CertificateBuilder()] *)
Definition new_builder : CertificateBuilder :=
  mkBuilder None None None None None None [].

(** The methods of the builder: each returns a builder with one more field
    set. *)
Definition subject_name (b : CertificateBuilder) (n : Name) : M CertificateBuilder :=
  call_lib "subject_name"
    (mkBuilder (Some n) (b_issuer b) (b_public_key b) (b_serial b)
       (b_not_valid_before b) (b_not_valid_after b) (b_extensions b)).

Definition issuer_name (b : CertificateBuilder) (n : Name) : M CertificateBuilder :=
  call_lib "issuer_name"
    (mkBuilder (b_subject b) (Some n) (b_public_key b) (b_serial b)
       (b_not_valid_before b) (b_not_valid_after b) (b_extensions b)).

Definition builder_public_key (b : CertificateBuilder) (k : PublicKey) : M CertificateBuilder :=
  call_lib "public_key"
    (mkBuilder (b_subject b) (b_issuer b) (Some k) (b_serial b)
       (b_not_valid_before b) (b_not_valid_after b) (b_extensions b)).

Definition serial_number (b : CertificateBuilder) (n : Z) : M CertificateBuilder :=
  call_lib "serial_number"
    (mkBuilder (b_subject b) (b_issuer b) (b_public_key b) (Some n)
       (b_not_valid_before b) (b_not_valid_after b) (b_extensions b)).

Definition not_valid_before (b : CertificateBuilder) (t : datetime) : M CertificateBuilder :=
  call_lib "not_valid_before"
    (mkBuilder (b_subject b) (b_issuer b) (b_public_key b) (b_serial b)
       (Some t) (b_not_valid_after b) (b_extensions b)).

Definition not_valid_after (b : CertificateBuilder) (t : datetime) : M CertificateBuilder :=
  call_lib "not_valid_after"
    (mkBuilder (b_subject b) (b_issuer b) (b_public_key b) (b_serial b)
       (b_not_valid_before b) (Some t) (b_extensions b)).

Definition add_extension (b : CertificateBuilder) (x : Extension) (critical : bool) : M CertificateBuilder :=
  call_lib "add_extension"
    (mkBuilder (b_subject b) (b_issuer b) (b_public_key b) (b_serial b)
       (b_not_valid_before b) (b_not_valid_after b) (b_extensions b ++ [(x, critical)])).

(** [builder.sign(key, algorithm)]: a builder with an unset field is refused
    with a [ValueError]; the certificate holds the builder's fields, its two
    times to the second. *)
Definition sign (b : CertificateBuilder) (k : PrivateKey) (h : HashAlgorithm) : M Certificate :=
  match b_subject b, b_issuer b, b_public_key b, b_serial b,
        b_not_valid_before b, b_not_valid_after b with
  | Some s, Some i, Some pk, Some sn, Some nb, Some na =>
      call_lib "sign"
        (mkCertificate s i pk sn (drop_microseconds nb) (drop_microseconds na)
           (b_extensions b) k h)
  | _, _, _, _, _, _ => raise (Exc ValueError "A certificate must have all of its fields set")
  end.

(** [cert.public_bytes(encoding)] *)
Definition public_bytes (c : Certificate) (e : Encoding) : M pybytes :=
  call_lib "public_bytes" (CertBytes c e).

(** The name of lines 47-53, used for both subject and issuer. *)
Definition localhost_name : Name :=
  [ mkNameAttribute COUNTRY_NAME "US";
    mkNameAttribute STATE_OR_PROVINCE_NAME "California";
    mkNameAttribute LOCALITY_NAME "San Francisco";
    mkNameAttribute ORGANIZATION_NAME "My Company";
    mkNameAttribute COMMON_NAME "localhost" ].

(** Lines 37-66. *)
Definition generate_self_signed_cert (cert_file key_file : string) : M unit :=
  key <- rsa_generate_private_key 65537 2048 ;;
  (* with open(key_file, "wb") as f: f.write(key.private_bytes(...)) *)
  open_wb key_file ;;;
  kb <- private_bytes key PEM TraditionalOpenSSL NoEncryption ;;
  file_write key_file kb ;;;
  (* subject = issuer = x509.Name([...]) *)
  let subject := localhost_name in
  let issuer := subject in
  (* cert = (x509.CertificateBuilder() ... .sign(key, hashes.SHA256())) *)
  b <- subject_name new_builder subject ;;
  b <- issuer_name b issuer ;;
  b <- builder_public_key b (public_key key) ;;
  sn <- random_serial_number ;;
  b <- serial_number b sn ;;
  t1 <- utcnow ;;
  b <- not_valid_before b t1 ;;
  t2 <- utcnow ;;
  b <- not_valid_after b (t2 + timedelta_days 365)%Z ;;
  b <- add_extension b (SubjectAlternativeName [DNSName "localhost"]) false ;;
  cert <- sign b key SHA256 ;;
  (* with open(cert_file, "wb") as f: f.write(cert.public_bytes(...)) *)
  open_wb cert_file ;;;
  cb <- public_bytes cert PEM ;;
  file_write cert_file cb.

(** Lines 69-70, run once when the module is imported:
    [if not os.path.exists("cert.pem") or not os.path.exists("key.pem"):
         generate_self_signed_cert("cert.pem", "key.pem")].
    The [or] does not look at [key.pem] when [cert.pem] is missing. *)
Definition ensure_certificate : M unit :=
  c <- os_path_exists "cert.pem" ;;
  missing <- (if negb c then ret true
              else k <- os_path_exists "key.pem" ;; ret (negb k)) ;;
  if (missing : bool) then generate_self_signed_cert "cert.pem" "key.pem"
  else ret tt.

(** The key and the certificate a run of [generate_self_signed_cert] makes
    when it starts in world [w] and no call fails: the key holds the next
    draw of the entropy source, the serial number the one after; the validity
    window starts at the next reading of the clock and ends 365 days after
    the reading that follows it, both to the second. *)
Definition fresh_key (w : World) : PrivateKey :=
  mkPrivateKey 65537 2048 (entropy P (rng_draws w)).

Definition fresh_cert (w : World) : Certificate :=
  mkCertificate localhost_name localhost_name (PublicKeyOf (fresh_key w))
    (entropy P (S (rng_draws w)))
    (drop_microseconds (clock P (clock_reads w)))
    (drop_microseconds (clock P (S (clock_reads w)) + timedelta_days 365)%Z)
    [(SubjectAlternativeName [DNSName "localhost"], false)]
    (fresh_key w) SHA256.

End Provisioning.

(* ================================================================== *)
(** * Values of the request handler *)
(* ================================================================== *)

(** Python values that travel as JSON: what [request.get_json()] returns and
    what [jsonify] is given. *)
Inductive pyvalue :=
| PyNone
| PyBool (b : bool)
| PyInt (n : Z)
| PyFloat (x : spec_float)
| PyStr (s : string)
| PyList (l : list pyvalue)
| PyDict (d : gmap string pyvalue).

(** The request as Flask hands it to the handler. *)
Record Request := mkRequest {
  content_type : string;
  body : list Byte.byte
}.

(** The response [jsonify] builds: a status code and a JSON body. *)
Record Response := mkResponse {
  status_code : Z;
  json : pyvalue
}.

(** [jsonify(d)]: a response with the default status code, 200. *)
Definition jsonify (d : gmap string pyvalue) : Response :=
  mkResponse 200 (PyDict d).

(** [data[key]] for a string [key]: a lookup on a dict, a [TypeError] on
    every other JSON value. *)
Definition getitem (data : pyvalue) (key : string) : result pyvalue :=
  match data with
  | PyDict d =>
      match d !! key with
      | Some v => Ok v
      | None => Raise (mkKeyError key)
      end
  | PyList _ => Raise (Exc TypeError "list indices must be integers or slices, not str")
  | PyStr _ => Raise (Exc TypeError "string indices must be integers, not 'str'")
  | PyNone => Raise (Exc TypeError "'NoneType' object is not subscriptable")
  | PyBool _ => Raise (Exc TypeError "'bool' object is not subscriptable")
  | PyInt _ => Raise (Exc TypeError "'int' object is not subscriptable")
  | PyFloat _ => Raise (Exc TypeError "'float' object is not subscriptable")
  end.

(** ** float32 *)

(** NumPy's [float32] is IEEE binary32: 24 bits of precision, exponents up
    to 128. *)
Abbreviation float32 := spec_float.

Definition f32_of_Z (n : Z) : float32 := binary_normalize 24 128 n 0 false.
Definition f32_div (x y : float32) : float32 := SFdiv 24 128 x y.
Definition f32_zero : float32 := f32_of_Z 0.
Definition f32_one : float32 := f32_of_Z 1.

Definition is_nan (x : float32) : bool :=
  match x with S754_nan => true | _ => false end.

(** [0.0 <= x <= 1.0] *)
Definition in_unit_interval (x : float32) : bool :=
  SFleb f32_zero x && SFleb x f32_one.

(** ** Images and arrays *)

(** A Pillow image: its mode, its size (width, height) and the value of
    band [c] of the pixel at column [x], row [y]. *)
Record Image := mkImage {
  mode : string;
  size : nat * nat;
  getpixel : nat -> nat -> nat -> Byte.byte
}.

(** [len(im.getbands())] *)
Definition nbands (m : string) : nat :=
  if decide (m = "RGB") then 3
  else if decide (m = "RGBA") then 4
  else if decide (m = "CMYK") then 4
  else if decide (m = "YCbCr") then 3
  else if decide (m = "LAB") then 3
  else if decide (m = "HSV") then 3
  else if decide (m = "LA") then 2
  else if decide (m = "PA") then 2
  else 1.

(** Arrays are nested lists, outermost axis first. *)
Abbreviation array1 := (list float32).
Abbreviation array2 := (list array1).
Abbreviation array3 := (list array2).
Abbreviation array4 := (list array3).

Definition tabulate {A} (n : nat) (f : nat -> A) : list A := List.map f (seq 0 n).

(** [img_to_array(image)]: a float32 array of shape (height, width, bands)
    holding the pixel values. *)
Definition img_to_array (im : Image) : array3 :=
  tabulate (snd (size im)) (fun y =>
    tabulate (fst (size im)) (fun x =>
      tabulate (nbands (mode im)) (fun c =>
        f32_of_Z (Z.of_N (Byte.to_N (getpixel im x y c)))))).

(** [a / 255.0] on a three-axis float32 array: every element divided by
    255, in float32. *)
Definition div_255 (a : array3) : array3 :=
  List.map (List.map (List.map (fun v => f32_div v (f32_of_Z 255)))) a.

(** [np.expand_dims(a, axis=0)] *)
Definition expand_dims (a : array3) : array4 := [a].

(** [a.shape] of a four-axis array, read along the first elements; [regular]
    says that every element along every axis has that shape. *)
Definition shape4 (a : array4) : nat * nat * nat * nat :=
  (length a,
   length (default [] (head a)),
   length (default [] (head (default [] (head a)))),
   length (default [] (head (default [] (head (default [] (head a))))))).

Definition regular4 (a : array4) (n0 n1 n2 n3 : nat) : Prop :=
  length a = n0 /\
  Forall (fun a3 => length a3 = n1 /\
    Forall (fun a2 => length a2 = n2 /\
      Forall (fun a1 : array1 => length a1 = n3) a2) a3) a.

(** ** NumPy reductions *)

(** [np.maximum(a, b)] on two floats, as NumPy's loop has it:
    [(a >= b || isnan(a)) ? a : b]. *)
Definition np_maximum (a b : float32) : float32 :=
  if SFleb b a || is_nan a then a else b.

(** [np.max(v)]: [np.maximum] folded from the first element; an empty array
    is refused. *)
Definition np_max (v : array1) : result float32 :=
  match v with
  | [] => Raise (Exc ValueError "zero-size array to reduction operation maximum which has no identity")
  | x :: v' => Ok (fold_left np_maximum v' x)
  end.

(** NumPy's [argmax] loop over floats: [mp] is the running maximum, [best]
    its index, [i] the index of the head of [v].  An element replaces the
    maximum when [!(x <= mp)]; a NaN ends the scan. *)
Fixpoint argmax_loop (mp : float32) (best i : nat) (v : array1) : nat :=
  match v with
  | [] => best
  | x :: v' =>
      if negb (SFleb x mp)
      then (if is_nan x then i else argmax_loop x i (S i) v')
      else argmax_loop mp best (S i) v'
  end.

(** [np.argmax(v)] *)
Definition np_argmax (v : array1) : result nat :=
  match v with
  | [] => Raise (Exc ValueError "attempt to get argmax of an empty sequence")
  | x :: v' => Ok (if is_nan x then 0 else argmax_loop x 0 1 v')
  end.

(** [preds[0]] on a two-axis array *)
Definition first_row (preds : array2) : result array1 :=
  match preds with
  | [] => Raise (Exc IndexError "index 0 is out of bounds for axis 0 with size 0")
  | r :: _ => Ok r
  end.

(** [float(x)] of a float32: the same number as a Python float (widening
    binary32 to binary64 is exact). *)
Definition float (x : float32) : spec_float := x.

(** [labels[i]] on a Python list *)
Definition list_getitem (labels : list string) (i : nat) : result string :=
  match labels !! i with
  | Some s => Ok s
  | None => Raise (Exc IndexError "list index out of range")
  end.

(* ================================================================== *)
(** * The request handler ([app.py], lines 79-107) *)
(* ================================================================== *)

(** The library calls of the handler whose results depend on their
    arguments: each returns a value or raises. *)
Record Libs := mkLibs {
  (** [request.get_json()] *)
  get_json : Request -> result pyvalue;
  (** [base64.b64decode(s)] *)
  b64decode : pyvalue -> result (list Byte.byte);
  (** [Image.open(BytesIO(b))] *)
  Image_open : list Byte.byte -> result Image;
  (** the pixels [image.convert(mode)] computes *)
  convert_data : Image -> string -> result (nat -> nat -> nat -> Byte.byte);
  (** the pixels [image.resize(size)] computes *)
  resize_data : Image -> nat * nat -> result (nat -> nat -> nat -> Byte.byte);
  (** [model.predict(batch)] of the model loaded at line 25 *)
  model_predict : array4 -> result array2
}.

(** Line 26. *)
Definition class_labels : list string := ["mask"; "no_mask"].

Section Handler.
Variable L : Libs.

(** [image.convert(m)]: an image of mode [m] and of the same size. *)
Definition convert (im : Image) (m : string) : result Image :=
  match convert_data L im m with
  | Ok px => Ok (mkImage m (size im) px)
  | Raise e => Raise e
  end.

(** [image.resize(sz)]: an image of size [sz] and of the same mode. *)
Definition resize (im : Image) (sz : nat * nat) : result Image :=
  match resize_data L im sz with
  | Ok px => Ok (mkImage (mode im) sz px)
  | Raise e => Raise e
  end.

(** Lines 86-92: from the value of the ['image'] field to the batch given to
    the model. *)
Definition preprocess (image_data : pyvalue) : M array4 :=
  image_bytes <- lift (b64decode L image_data) ;;
  image <- lift (Image_open L image_bytes) ;;
  image <- lift (convert image "RGB") ;;
  image <- lift (resize image (224, 224)) ;;
  let img_array := div_255 (img_to_array image) in
  let img_array := expand_dims img_array in
  ret img_array.

(** The body of [jsonify] at lines 100-104 and at line 107. *)
Definition success_body (prediction : string) (confidence : spec_float) : gmap string pyvalue :=
  <["status" := PyStr "success"]>
    (<["prediction" := PyStr prediction]>
       (<["confidence" := PyFloat confidence]> ∅)).

Definition error_body (message : string) : gmap string pyvalue :=
  <["status" := PyStr "error"]> (<["message" := PyStr message]> ∅).

(** Lines 82-104: the statements under [try]. *)
Definition detect_try (request : Request) : M Response :=
  data <- lift (get_json L request) ;;
  image_data <- lift (getitem data "image") ;;
  img_array <- preprocess image_data ;;
  preds <- lift (model_predict L img_array) ;;
  row <- lift (first_row preds) ;;
  class_index <- lift (np_argmax row) ;;
  row' <- lift (first_row preds) ;;
  m <- lift (np_max row') ;;
  let confidence := float m in
  prediction <- lift (list_getitem class_labels class_index) ;;
  ret (jsonify (success_body prediction confidence)).

(** Lines 80-107. *)
Definition detect (request : Request) : M Response :=
  try_except (detect_try request)
    (fun e => ret (jsonify (error_body (str e)))).

(** Requests handled one after the other, in the order given. *)
Fixpoint serve (requests : list Request) : M (list Response) :=
  match requests with
  | [] => ret []
  | r :: rs =>
      resp <- detect r ;;
      resps <- serve rs ;;
      ret (resp :: resps)
  end.

End Handler.

(* ================================================================== *)
(** * Concrete platforms and worlds *)
(* ================================================================== *)

#[global] Instance Step_eq_dec : EqDecision Step.
Proof. solve_decision. Defined.

(** The steps of [generate_self_signed_cert "cert.pem" "key.pem"] that can
    fail, in program order: those that write the key, those that build and
    sign the certificate, those that write it. *)
Definition key_steps : list Step :=
  [ CallLib "rsa.generate_private_key"; OpenFile "key.pem";
    CallLib "private_bytes"; WriteFile "key.pem" ].

Definition build_steps : list Step :=
  [ CallLib "subject_name"; CallLib "issuer_name"; CallLib "public_key";
    CallLib "x509.random_serial_number"; CallLib "serial_number";
    CallLib "not_valid_before"; CallLib "not_valid_after";
    CallLib "add_extension"; CallLib "sign" ].

Definition cert_write_steps : list Step :=
  [ OpenFile "cert.pem"; CallLib "public_bytes"; WriteFile "cert.pem" ].

(** A platform on which no call fails and whose clock advances by one
    second between two readings. *)
Definition ticking_platform : Platform :=
  mkPlatform (fun n => (1700000000 * 1000000 + Z.of_nat n * 1000000)%Z)
             (fun n => (41 + Z.of_nat n)%Z)
             (fun _ => None).

(** The same platform, on which step [s] fails with [e]. *)
Definition failing_platform (s : Step) (e : exn) : Platform :=
  mkPlatform (clock ticking_platform) (entropy ticking_platform)
             (fun s' => if decide (s' = s) then Some e else None).

Definition empty_world : World := mkWorld ∅ 0 0.

(** A working directory holding an older pair of files. *)
Definition old_key : PrivateKey := mkPrivateKey 65537 2048 7.
Definition old_cert_bytes : pybytes := Bytes [Byte.x2d; Byte.x2d].
Definition old_key_bytes : pybytes := KeyBytes old_key PEM TraditionalOpenSSL NoEncryption.

Definition provisioned_world : World :=
  mkWorld (<["cert.pem" := old_cert_bytes]> (<["key.pem" := old_key_bytes]> ∅)) 0 0.

Definition cert_only_world : World :=
  mkWorld (<["cert.pem" := old_cert_bytes]> ∅) 0 0.

Definition disk_full : exn := Exc OSError "[Errno 28] No space left on device".
Definition sign_failure : exn := Exc (LibraryError "UnsupportedAlgorithm") "unsupported".

(* ================================================================== *)
(** * Preconditions of the handler's properties, and a concrete setting *)
(* ================================================================== *)

(** The batch the handler gives to the model for the resized image [im]. *)
Definition batch_of (im : Image) : array4 :=
  expand_dims (div_255 (img_to_array im)).

(** The body of [request] is a JSON object whose ['image'] field holds base64
    text of image bytes that Pillow opens, converts and resizes; [im] is the
    resized image. *)
Definition valid_image_request (L : Libs) (request : Request) (im : Image) : Prop :=
  exists d v image_bytes im0 im1,
    get_json L request = Ok (PyDict d) /\
    d !! "image" = Some v /\
    b64decode L v = Ok image_bytes /\
    Image_open L image_bytes = Ok im0 /\
    convert L im0 "RGB" = Ok im1 /\
    resize L im1 (224, 224) = Ok im.

(** A probability vector over the label set: one float32 in [0, 1] per
    label. *)
Definition probability_vector (v : array1) : Prop :=
  length v = length class_labels /\
  Forall (fun p => in_unit_interval p = true) v.

(** Every element of a four-axis array satisfies [Q]. *)
Definition Forall4 (Q : float32 -> Prop) (a : array4) : Prop :=
  Forall (Forall (Forall (Forall Q))) a.

(** The element at index [(i0, i1, i2, i3)]. *)
Definition at4 (a : array4) (i0 i1 i2 i3 : nat) : option float32 :=
  a3 ← a !! i0; a2 ← a3 !! i1; a1 ← a2 !! i2; a1 !! i3.

(** A toy instance of the libraries: a JSON request is read as an object with
    an ['image'] field unless its body is empty; any string decodes to one
    byte; an image is one grey pixel of that value; the model answers
    [[0.25, 0.75]]. *)
Definition demo_libs : Libs :=
  mkLibs
    (fun r =>
       if decide (content_type r = "application/json")
       then match body r with
            | [] => Ok (PyDict ∅)
            | _ => Ok (PyDict (<["image" := PyStr "yA=="]> ∅))
            end
       else Raise (Exc UnsupportedMediaType "415 Unsupported Media Type"))
    (fun v =>
       match v with
       | PyStr _ => Ok [Byte.xc8]
       | _ => Raise (Exc TypeError "argument should be a bytes-like object or ASCII string")
       end)
    (fun b =>
       match b with
       | [] => Raise (Exc UnidentifiedImageError "cannot identify image file")
       | p :: _ => Ok (mkImage "L" (1, 1) (fun _ _ _ => p))
       end)
    (fun im _ => Ok (fun x y _ => getpixel im x y 0))
    (fun im _ => Ok (fun _ _ c => getpixel im 0 0 c))
    (fun _ => Ok [[S754_finite false 8388608 (-25); S754_finite false 12582912 (-24)]]).

Definition demo_request : Request := mkRequest "application/json" [Byte.x7b; Byte.x7d].
Definition empty_object_request : Request := mkRequest "application/json" [].

(** The images [demo_libs] makes of [demo_request]: opened, converted,
    resized. *)
Definition demo_opened : Image := mkImage "L" (1, 1) (fun _ _ _ => Byte.xc8).
Definition demo_rgb : Image :=
  mkImage "RGB" (1, 1) (fun x y _ => getpixel demo_opened x y 0).
Definition demo_resized : Image :=
  mkImage "RGB" (224, 224) (fun _ _ c => getpixel demo_rgb 0 0 c).

(** The pipeline of lines 86-92 as the specification lists it: decode the
    base64 text, decode the bytes as an image, force three colour channels,
    resize to 224 by 224, convert to floats and divide each by 255, put the
    result in a batch of one.  A step that fails ends the pipeline. *)
Definition preprocess_spec (L : Libs) (image_data : pyvalue) : result array4 :=
  match b64decode L image_data with
  | Raise e => Raise e
  | Ok image_bytes =>
      match Image_open L image_bytes with
      | Raise e => Raise e
      | Ok opened =>
          match convert L opened "RGB" with
          | Raise e => Raise e
          | Ok rgb =>
              match resize L rgb (224, 224) with
              | Raise e => Raise e
              | Ok resized =>
                  Ok [ List.map (List.map (List.map
                         (fun p => f32_div p (f32_of_Z 255))))
                         (img_to_array resized) ]
              end
          end
      end
  end.

(* ================================================================== *)
(** * The rest of the script: model loading, local address, start-up *)
(* ================================================================== *)

(** The forward pass of a loaded Keras model. *)
Definition Model : Type :=
  list (list (list (list spec_float))) -> result (list (list spec_float)).

(** The calls of the script outside the handler and the provisioning. *)
Record Host := mkHost {
  (** [load_model(path)] *)
  load_model : string -> result Model;
  (** [socket.gethostname()] *)
  gethostname : result string;
  (** [socket.gethostbyname(name)] *)
  gethostbyname : string -> result string
}.

(** Lines 31-35: the [except:] clause has no class, it takes every
    exception. *)
Definition get_local_ip (H : Host) : M string :=
  try_except
    (name <- lift (gethostname H) ;;
     lift (gethostbyname H name))
    (fun _ => ret "127.0.0.1").

(** The keyword arguments of [app.run] at line 116. *)
Record AppRun := mkAppRun {
  run_debug : bool;
  run_host : string;
  run_port : Z;
  run_ssl_context : string * string
}.

(** The statements the import of the module executes, in order: the model is
    loaded (line 25), then the certificate files are provided (lines
    69-70). *)
Definition import_module (H : Host) (P : Platform) : M Model :=
  model <- lift (load_model H "mask-detector-model.h5") ;;
  ensure_certificate P ;;;
  ret model.

(** Lines 113-116: the line printed and the call of [app.run]. *)
Definition main (H : Host) : M (string * AppRun) :=
  local_ip <- get_local_ip H ;;
  let banner := " * Running on https://" +:+ local_ip +:+ ":5000" in
  ret (banner, mkAppRun true "0.0.0.0" 5000 ("cert.pem", "key.pem")).

(** The script run as a program: the import, then [main]. *)
Definition run_script (H : Host) (P : Platform) : M (string * AppRun) :=
  import_module H P ;;;
  main H.

(** The steps of [generate_self_signed_cert cert_file key_file] that can
    fail, in program order, and the exception of the first of them that the
    platform makes fail. *)
Definition generate_steps (cert_file key_file : string) : list Step :=
  [ CallLib "rsa.generate_private_key"; OpenFile key_file;
    CallLib "private_bytes"; WriteFile key_file;
    CallLib "subject_name"; CallLib "issuer_name"; CallLib "public_key";
    CallLib "x509.random_serial_number"; CallLib "serial_number";
    CallLib "not_valid_before"; CallLib "not_valid_after";
    CallLib "add_extension"; CallLib "sign";
    OpenFile cert_file; CallLib "public_bytes"; WriteFile cert_file ].

Fixpoint first_fault (P : Platform) (steps : list Step) : option exn :=
  match steps with
  | [] => None
  | s :: rest =>
      match fault P s with
      | Some e => Some e
      | None => first_fault P rest
      end
  end.

(** A host whose name resolves, and one whose resolver fails. *)
Definition demo_model : Model :=
  fun _ => Ok [[S754_finite false 8388608 (-25); S754_finite false 12582912 (-24)]].

Definition resolving_host : Host :=
  mkHost (fun _ => Ok demo_model) (Ok "devbox") (fun _ => Ok "192.168.1.20").

Definition unresolving_host : Host :=
  mkHost (fun _ => Ok demo_model) (Ok "devbox")
         (fun _ => Raise (Exc OSError "[Errno -2] Name or service not known")).

Definition modelless_host : Host :=
  mkHost (fun _ => Raise (Exc OSError "No file or directory found at mask-detector-model.h5"))
         (Ok "devbox") (fun _ => Ok "192.168.1.20").

(** The files a run of [generate_self_signed_cert cert_file key_file] leaves,
    by how far it gets: nothing is written before the key file is opened;
    the key file is empty until the key is written; the certificate file is
    untouched until it is opened, and empty until the certificate is
    written. *)
Definition disk_after (P : Platform) (cert_file key_file : string) (w : World) :
    gmap string pybytes :=
  let key := KeyBytes (fresh_key P w) PEM TraditionalOpenSSL NoEncryption in
  match first_fault P [CallLib "rsa.generate_private_key"; OpenFile key_file] with
  | Some _ => files w
  | None =>
  match first_fault P [CallLib "private_bytes"; WriteFile key_file] with
  | Some _ => <[key_file := Bytes []]> (files w)
  | None =>
  match first_fault P
          [ CallLib "subject_name"; CallLib "issuer_name"; CallLib "public_key";
            CallLib "x509.random_serial_number"; CallLib "serial_number";
            CallLib "not_valid_before"; CallLib "not_valid_after";
            CallLib "add_extension"; CallLib "sign"; OpenFile cert_file ] with
  | Some _ => <[key_file := key]> (files w)
  | None =>
  match first_fault P [CallLib "public_bytes"; WriteFile cert_file] with
  | Some _ => <[cert_file := Bytes []]> (<[key_file := key]> (files w))
  | None =>
      <[cert_file := CertBytes (fresh_cert P w) PEM]> (<[key_file := key]> (files w))
  end end end end.

(** [demo_libs] with another model, and with another JSON body. *)
Definition with_model (L : Libs)
    (predict : list (list (list (list spec_float))) -> result (list (list spec_float))) : Libs :=
  mkLibs (get_json L) (b64decode L) (Image_open L) (convert_data L) (resize_data L) predict.

Definition with_json (L : Libs) (data : pyvalue) : Libs :=
  mkLibs (fun _ => Ok data) (b64decode L) (Image_open L) (convert_data L) (resize_data L)
         (model_predict L).

(** A model trained with three classes, answering [[0.25, 0.25, 0.75]]. *)
Definition three_class_row : list spec_float :=
  [S754_finite false 8388608 (-25); S754_finite false 8388608 (-25);
   S754_finite false 12582912 (-24)].

(** The value in [0, 1] that [x / 255.0] gives for the pixel value [x]. *)
Definition scale_pixel (x : Z) : spec_float := f32_div (f32_of_Z x) (f32_of_Z 255).

(** The pixel values, 0 to 255. *)
Definition pixel_values : list Z := List.map Z.of_nat (seq 0 256).

(** A directory holding the model file, and one holding only an older key. *)
Definition model_file_world : World :=
  mkWorld (<["mask-detector-model.h5" := Bytes [Byte.x89; Byte.x48]]> ∅) 0 0.

Definition key_only_world : World :=
  mkWorld (<["key.pem" := old_key_bytes]> ∅) 0 0.

Definition permission_denied : exn :=
  Exc OSError "[Errno 13] Permission denied: 'key.pem'".

(* ================================================================== *)
(** * Certificate provisioning: theorems *)
(* ================================================================== *)

Lemma drop_microseconds_plus_days (t n : Z) :
  drop_microseconds (t + timedelta_days n)%Z = (drop_microseconds t + timedelta_days n)%Z.
Proof.
  unfold drop_microseconds, timedelta_days.
  replace (t + n * 86400 * 1000000)%Z with (t + (n * 86400) * 1000000)%Z by lia.
  rewrite Z_mod_plus_full. lia.
Qed.

Ltac run_monad :=
  unfold ensure_certificate, generate_self_signed_cert, rsa_generate_private_key,
    random_serial_number, private_bytes, public_bytes, subject_name, issuer_name,
    builder_public_key, serial_number, not_valid_before, not_valid_after,
    add_extension, sign, open_wb, file_write, utcnow, draw, call_lib,
    os_path_exists, bind, ret, raise, lift; simpl.

Lemma bind_assoc {A B C} (m : M A) (f : A -> M B) (g : B -> M C) (w : World) :
  bind (bind m f) g w = bind m (fun a => bind (f a) g) w.
Proof. unfold bind. destruct (m w) as [[a|e] w']; reflexivity. Qed.

Lemma bind_ret {A B} (a : A) (k : A -> M B) (w : World) : bind (ret a) k w = k a w.
Proof. reflexivity. Qed.

Section ProvisioningFacts.
Variable P : Platform.

Lemma bind_call_lib {A B} (fn : string) (v : A) (k : A -> M B) (w : World) :
  bind (call_lib P fn v) k w =
    match fault P (CallLib fn) with
    | Some e => (Raise e, w)
    | None => k v w
    end.
Proof. unfold bind, call_lib. destruct (fault P (CallLib fn)); reflexivity. Qed.

Lemma bind_open_wb {B} (path : string) (k : unit -> M B) (w : World) :
  bind (open_wb P path) k w =
    match fault P (OpenFile path) with
    | Some e => (Raise e, w)
    | None => k tt (mkWorld (<[path := Bytes []]> (files w)) (clock_reads w) (rng_draws w))
    end.
Proof. unfold bind, open_wb. destruct (fault P (OpenFile path)); reflexivity. Qed.

Lemma bind_file_write {B} (path : string) (data : pybytes) (k : unit -> M B) (w : World) :
  bind (file_write P path data) k w =
    match fault P (WriteFile path) with
    | Some e => (Raise e, w)
    | None => k tt (mkWorld (<[path := data]> (files w)) (clock_reads w) (rng_draws w))
    end.
Proof. unfold bind, file_write. destruct (fault P (WriteFile path)); reflexivity. Qed.

Lemma bind_utcnow {B} (k : datetime -> M B) (w : World) :
  bind (utcnow P) k w =
    k (clock P (clock_reads w)) (mkWorld (files w) (S (clock_reads w)) (rng_draws w)).
Proof. reflexivity. Qed.

Lemma bind_draw {B} (k : Z -> M B) (w : World) :
  bind (draw P) k w =
    k (entropy P (rng_draws w)) (mkWorld (files w) (clock_reads w) (S (rng_draws w))).
Proof. reflexivity. Qed.

Ltac unfold_program :=
  unfold generate_self_signed_cert, rsa_generate_private_key,
    random_serial_number, private_bytes, public_bytes, subject_name, issuer_name,
    builder_public_key, serial_number, not_valid_before, not_valid_after,
    add_extension.

Ltac step :=
  first [ rewrite bind_assoc
        | rewrite bind_ret
        | rewrite bind_call_lib
        | rewrite bind_open_wb
        | rewrite bind_file_write
        | rewrite bind_utcnow
        | rewrite bind_draw ].

Lemma generate_ok (c k : string) (w : World) :
  (forall s, fault P s = None) ->
  generate_self_signed_cert P c k w =
    (Ok tt, mkWorld (<[c := CertBytes (fresh_cert P w) PEM]>
                       (<[k := KeyBytes (fresh_key P w) PEM TraditionalOpenSSL NoEncryption]> (files w)))
                    (S (S (clock_reads w))) (S (S (rng_draws w)))).
Proof.
  intros Hnf. unfold_program.
  repeat (step; rewrite ?Hnf; cbn [files clock_reads rng_draws b_subject b_issuer
    b_public_key b_serial b_not_valid_before b_not_valid_after b_extensions new_builder app]).
  unfold sign. cbn [b_subject b_issuer
    b_public_key b_serial b_not_valid_before b_not_valid_after b_extensions].
  repeat (step; rewrite ?Hnf; cbn [files clock_reads rng_draws]).
  unfold file_write. rewrite Hnf. cbn [files clock_reads rng_draws].
  rewrite !insert_insert_eq. reflexivity.
Qed.

Lemma ensure_runs_generate (w : World) :
  files w !! "cert.pem" = None \/ files w !! "key.pem" = None ->
  ensure_certificate P w = generate_self_signed_cert P "cert.pem" "key.pem" w.
Proof.
  intros H. unfold ensure_certificate, os_path_exists, bind, ret. simpl.
  destruct (decide (is_Some (files w !! "cert.pem"))) as [Hc|Hc].
  - rewrite (bool_decide_eq_true_2 _ Hc). simpl.
    destruct H as [H|H].
    + rewrite H in Hc. destruct Hc as [x Hx]. discriminate.
    + rewrite bool_decide_eq_false_2; [reflexivity|].
      rewrite H. intros [x Hx]. discriminate.
  - rewrite (bool_decide_eq_false_2 _ Hc). reflexivity.
Qed.

(** C6: when [cert.pem] and [key.pem] both exist, the provisioning of lines
    69-70 returns without doing anything: the world it leaves is the world it
    found, so neither file is written, truncated or changed, and neither the
    clock nor the entropy source is read. *)
Theorem provisioning_idempotent (w : World) :
  is_Some (files w !! "cert.pem") ->
  is_Some (files w !! "key.pem") ->
  ensure_certificate P w = (Ok tt, w).
Proof.
  intros Hc Hk. unfold ensure_certificate, os_path_exists, bind, ret. simpl.
  rewrite (bool_decide_eq_true_2 _ Hc). simpl.
  rewrite (bool_decide_eq_true_2 _ Hk). reflexivity.
Qed.

End ProvisioningFacts.

Lemma provisioning_idempotent_witness :
  ensure_certificate ticking_platform provisioned_world = (Ok tt, provisioned_world).
Proof.
  apply (provisioning_idempotent ticking_platform provisioned_world).
  - exists old_cert_bytes. vm_compute. reflexivity.
  - exists old_key_bytes. vm_compute. reflexivity.
Defined.

Section ProvisioningOutcome.
Variable P : Platform.

(** C7 (as amended): when neither [cert.pem] nor [key.pem] exists and no call
    fails, provisioning writes the private key to [key.pem], unencrypted, in
    PEM, TraditionalOpenSSL format, and to [cert.pem] the PEM encoding of a
    certificate whose subject common name is "localhost", whose issuer is its
    subject, which holds the public key of that private key and one
    SubjectAlternativeName entry, DNS "localhost", and which is signed by that
    key with SHA-256.  Its validity starts at the first reading of the clock
    and ends 365 days after the second one, both to the second: the length of
    the validity period is 365 days plus the whole seconds between the two
    readings. *)
Theorem fresh_certificate_contents (w : World) :
  files w !! "cert.pem" = None ->
  files w !! "key.pem" = None ->
  (forall s, fault P s = None) ->
  exists key cert w',
    ensure_certificate P w = (Ok tt, w') /\
    files w' !! "key.pem" = Some (KeyBytes key PEM TraditionalOpenSSL NoEncryption) /\
    files w' !! "cert.pem" = Some (CertBytes cert PEM) /\
    get_attributes_for_oid (subject cert) COMMON_NAME = ["localhost"] /\
    issuer cert = subject cert /\
    cert_public_key cert = public_key key /\
    signed_by cert = key /\
    extensions cert = [(SubjectAlternativeName [DNSName "localhost"], false)] /\
    signature_hash_algorithm cert = SHA256 /\
    (not_valid_after_of cert - not_valid_before_of cert =
       timedelta_days 365 +
       (drop_microseconds (clock P (S (clock_reads w))) -
        drop_microseconds (clock P (clock_reads w))))%Z.
Proof.
  intros Hc Hk Hnf.
  exists (fresh_key P w), (fresh_cert P w). eexists.
  split.
  { rewrite ensure_runs_generate by (left; exact Hc).
    apply generate_ok. exact Hnf. }
  simpl. split; [|split].
  - rewrite lookup_insert_ne by discriminate. apply lookup_insert_eq.
  - apply lookup_insert_eq.
  - repeat split.
    rewrite drop_microseconds_plus_days. lia.
Qed.

(** C9: when exactly one of [cert.pem] and [key.pem] exists, provisioning
    calls [generate_self_signed_cert] all the same; when no call fails, both
    files end up holding the new key and the new certificate, the file that
    was there is overwritten, and what is written is what a run from a
    directory with either file missing writes at the same clock and entropy
    readings: nothing of the old file is used. *)
Theorem one_file_missing_regenerates_both (w : World) :
  (is_Some (files w !! "cert.pem") /\ files w !! "key.pem" = None) \/
  (files w !! "cert.pem" = None /\ is_Some (files w !! "key.pem")) ->
  (forall s, fault P s = None) ->
  ensure_certificate P w = generate_self_signed_cert P "cert.pem" "key.pem" w /\
  exists w',
    ensure_certificate P w = (Ok tt, w') /\
    files w' !! "key.pem" =
      Some (KeyBytes (fresh_key P w) PEM TraditionalOpenSSL NoEncryption) /\
    files w' !! "cert.pem" = Some (CertBytes (fresh_cert P w) PEM) /\
    forall w0 : World,
      clock_reads w0 = clock_reads w -> rng_draws w0 = rng_draws w ->
      files w0 !! "cert.pem" = None \/ files w0 !! "key.pem" = None ->
      files (snd (ensure_certificate P w0)) !! "key.pem" = files w' !! "key.pem" /\
      files (snd (ensure_certificate P w0)) !! "cert.pem" = files w' !! "cert.pem".
Proof.
  intros Hone Hnf.
  assert (Hmiss : files w !! "cert.pem" = None \/ files w !! "key.pem" = None)
    by (destruct Hone as [[_ H]|[H _]]; auto).
  split; [apply ensure_runs_generate; exact Hmiss|].
  eexists. split.
  { rewrite ensure_runs_generate by exact Hmiss. apply generate_ok. exact Hnf. }
  simpl. split; [|split].
  - rewrite lookup_insert_ne by discriminate. apply lookup_insert_eq.
  - apply lookup_insert_eq.
  - intros w0 Hclk Hrng Hmiss0.
    rewrite ensure_runs_generate by exact Hmiss0.
    rewrite generate_ok by exact Hnf. simpl.
    unfold fresh_cert, fresh_key. rewrite Hclk, Hrng.
    rewrite !lookup_insert_eq.
    rewrite !(lookup_insert_ne _ "cert.pem" "key.pem") by discriminate.
    rewrite !lookup_insert_eq. split; reflexivity.
Qed.

(** C10 (as amended): provisioning is not atomic.  When the key has been
    written and a later call fails, the run ends with the exception and the
    key file holds the new key.  If the failing call is one that builds or
    signs the certificate, or the opening of [cert.pem], the certificate file
    is as it was before the run (absent if it was absent, its old content
    otherwise); if those calls all pass, the failure comes after [cert.pem]
    was opened for writing and the file exists, empty.  Nothing is rolled
    back. *)
Theorem key_written_before_certificate (w : World) (e : exn) (w' : World) :
  Forall (fun s => fault P s = None) key_steps ->
  generate_self_signed_cert P "cert.pem" "key.pem" w = (Raise e, w') ->
  files w' !! "key.pem" =
    Some (KeyBytes (fresh_key P w) PEM TraditionalOpenSSL NoEncryption) /\
  (Exists (fun s => is_Some (fault P s)) (build_steps ++ [OpenFile "cert.pem"]) ->
   files w' !! "cert.pem" = files w !! "cert.pem") /\
  (Forall (fun s => fault P s = None) (build_steps ++ [OpenFile "cert.pem"]) ->
   files w' !! "cert.pem" = Some (Bytes [])).
Proof.
  intros Hkey Hrun.
  unfold key_steps in Hkey.
  repeat match goal with
         | H : Forall _ (_ :: _) |- _ => apply Forall_cons_1 in H; destruct H as [? H]
         end.
  revert Hrun. run_monad.
  repeat match goal with H : fault P _ = None |- _ => rewrite H; clear H end.
  simpl.
  repeat match goal with
         | |- context [fault P ?s] => destruct (fault P s) eqn:?; simpl
         end.
  all: intros Hrun; inversion Hrun; subst; clear Hrun; simpl.
  all: split; [ | split ].
  all: try match goal with
           | |- Forall _ _ -> _ =>
               intros Hall; unfold build_steps in Hall; simpl in Hall;
               repeat match goal with
                      | H : Forall _ (_ :: _) |- _ =>
                          apply Forall_cons_1 in H; destruct H as [? H]
                      end; try congruence
           | |- Exists _ _ -> _ =>
               intros Hex; unfold build_steps in Hex; simpl in Hex;
               repeat match goal with
                      | H : Exists _ (_ :: _) |- _ =>
                          apply Exists_cons in H; destruct H as [[? ?]|H]; [congruence|]
                      end;
               try (apply Exists_nil in Hex; contradiction)
           end.
  all: repeat first [ rewrite lookup_insert_eq
                    | rewrite lookup_insert_ne by discriminate ]; reflexivity.
Qed.
End ProvisioningOutcome.

Lemma fresh_certificate_contents_witness :
  exists key cert w',
    ensure_certificate ticking_platform empty_world = (Ok tt, w') /\
    files w' !! "key.pem" = Some (KeyBytes key PEM TraditionalOpenSSL NoEncryption) /\
    files w' !! "cert.pem" = Some (CertBytes cert PEM) /\
    get_attributes_for_oid (subject cert) COMMON_NAME = ["localhost"] /\
    issuer cert = subject cert /\
    cert_public_key cert = public_key key /\
    signed_by cert = key /\
    extensions cert = [(SubjectAlternativeName [DNSName "localhost"], false)] /\
    signature_hash_algorithm cert = SHA256 /\
    (not_valid_after_of cert - not_valid_before_of cert =
       timedelta_days 365 +
       (drop_microseconds (clock ticking_platform (S (clock_reads empty_world))) -
        drop_microseconds (clock ticking_platform (clock_reads empty_world))))%Z.
Proof.
  apply (fresh_certificate_contents ticking_platform empty_world).
  - reflexivity.
  - reflexivity.
  - intros s. reflexivity.
Defined.

(** C7, as stated, fails: on a platform whose clock advances by one second
    between two readings, from an empty directory, the certificate written to
    [cert.pem] is valid for 365 days and one second. *)
Lemma validity_not_exactly_365_days :
  files empty_world !! "cert.pem" = None /\
  files empty_world !! "key.pem" = None /\
  exists cert w',
    ensure_certificate ticking_platform empty_world = (Ok tt, w') /\
    files w' !! "cert.pem" = Some (CertBytes cert PEM) /\
    (not_valid_after_of cert - not_valid_before_of cert)%Z =
      (timedelta_days 365 + 1000000)%Z /\
    (not_valid_after_of cert - not_valid_before_of cert)%Z <> timedelta_days 365.
Proof.
  split; [reflexivity|]. split; [reflexivity|].
  exists (fresh_cert ticking_platform empty_world). eexists.
  split.
  { rewrite ensure_runs_generate by (left; reflexivity).
    apply generate_ok. intros s. reflexivity. }
  split; [apply lookup_insert_eq|].
  split; vm_compute; [reflexivity|discriminate].
Qed.

Lemma one_file_missing_regenerates_both_witness :
  ensure_certificate ticking_platform cert_only_world =
    generate_self_signed_cert ticking_platform "cert.pem" "key.pem" cert_only_world /\
  exists w',
    ensure_certificate ticking_platform cert_only_world = (Ok tt, w') /\
    files w' !! "key.pem" =
      Some (KeyBytes (fresh_key ticking_platform cert_only_world) PEM TraditionalOpenSSL NoEncryption) /\
    files w' !! "cert.pem" = Some (CertBytes (fresh_cert ticking_platform cert_only_world) PEM) /\
    forall w0 : World,
      clock_reads w0 = clock_reads cert_only_world ->
      rng_draws w0 = rng_draws cert_only_world ->
      files w0 !! "cert.pem" = None \/ files w0 !! "key.pem" = None ->
      files (snd (ensure_certificate ticking_platform w0)) !! "key.pem" = files w' !! "key.pem" /\
      files (snd (ensure_certificate ticking_platform w0)) !! "cert.pem" = files w' !! "cert.pem".
Proof.
  apply (one_file_missing_regenerates_both ticking_platform cert_only_world).
  - left. split; [exists old_cert_bytes; vm_compute; reflexivity | vm_compute; reflexivity].
  - intros s. reflexivity.
Defined.

Lemma key_written_before_certificate_witness :
  let P := failing_platform (CallLib "sign") sign_failure in
  let w' := snd (generate_self_signed_cert P "cert.pem" "key.pem" empty_world) in
  files w' !! "key.pem" =
    Some (KeyBytes (fresh_key P empty_world) PEM TraditionalOpenSSL NoEncryption) /\
  (Exists (fun s => is_Some (fault P s)) (build_steps ++ [OpenFile "cert.pem"]) ->
   files w' !! "cert.pem" = files empty_world !! "cert.pem") /\
  (Forall (fun s => fault P s = None) (build_steps ++ [OpenFile "cert.pem"]) ->
   files w' !! "cert.pem" = Some (Bytes [])).
Proof.
  intros P w'.
  apply (key_written_before_certificate P empty_world sign_failure w').
  - unfold key_steps. repeat (constructor; [vm_compute; reflexivity|]). constructor.
  - vm_compute. reflexivity.
Defined.

(** C10, as stated, fails: after a failed run the certificate file can be
    there next to the new key file.  When [cert.pem] exists, [key.pem] does
    not and signing fails, the old [cert.pem] is still on disk; and from an
    empty directory, when writing the certificate fails after the file was
    opened, [cert.pem] exists and is empty. *)
Lemma failed_provisioning_leaves_certificate_file :
  (let P := failing_platform (CallLib "sign") sign_failure in
   let (r, w') := generate_self_signed_cert P "cert.pem" "key.pem" cert_only_world in
   r = Raise sign_failure /\
   is_Some (files w' !! "key.pem") /\
   files w' !! "cert.pem" = Some old_cert_bytes) /\
  (let P := failing_platform (WriteFile "cert.pem") disk_full in
   let (r, w') := generate_self_signed_cert P "cert.pem" "key.pem" empty_world in
   r = Raise disk_full /\
   is_Some (files w' !! "key.pem") /\
   files w' !! "cert.pem" = Some (Bytes [])).
Proof.
  split; vm_compute; repeat split; eauto.
Qed.

(* ================================================================== *)
(** * float32: order and scaling *)
(* ================================================================== *)







Lemma in_unit_interval_not_nan (x : float32) :
  in_unit_interval x = true -> is_nan x = false.
Proof. destruct x; try reflexivity. vm_compute. discriminate. Qed.

Lemma byte_scaled_in_unit_interval (b : Byte.byte) :
  in_unit_interval (f32_div (f32_of_Z (Z.of_N (Byte.to_N b))) (f32_of_Z 255)) = true.
Proof. destruct b; vm_compute; reflexivity. Qed.

(* ================================================================== *)
(** * [np.argmax] and [np.max] *)
(* ================================================================== *)

Lemma fold_maximum_nan (v : array1) : fold_left np_maximum v S754_nan = S754_nan.
Proof.
  induction v as [|x v IH]; [reflexivity|]. simpl.
  unfold np_maximum at 2. simpl. rewrite orb_true_r. exact IH.
Qed.

(** The index [argmax_loop] returns holds the value [np.maximum] folds to,
    whatever the floats are. *)
Lemma argmax_loop_max (v pre : array1) (mp : float32) (best i : nat) :
  is_nan mp = false ->
  length pre = i ->
  pre !! best = Some mp ->
  (pre ++ v) !! argmax_loop mp best i v = Some (fold_left np_maximum v mp).
Proof.
  revert pre mp best i.
  induction v as [|x v IH]; intros pre mp best i Hmp Hi Hbest; simpl.
  - rewrite app_nil_r. exact Hbest.
  - unfold np_maximum at 2. rewrite Hmp, orb_false_r.
    assert (Hsplit : pre ++ x :: v = (pre ++ [x]) ++ v)
      by (rewrite <- app_assoc; reflexivity).
    assert (Hlen : length (pre ++ [x]) = S i)
      by (rewrite length_app; simpl; lia).
    assert (Hlast : (pre ++ [x]) !! i = Some x).
    { rewrite lookup_app_r by lia. subst i. rewrite Nat.sub_diag. reflexivity. }
    destruct (SFleb x mp) eqn:Hle; simpl.
    + rewrite Hsplit. apply IH; [exact Hmp|exact Hlen|].
      apply lookup_app_l_Some. exact Hbest.
    + destruct (is_nan x) eqn:Hx.
      * destruct x; try discriminate. rewrite fold_maximum_nan.
        rewrite Hsplit. apply lookup_app_l_Some. exact Hlast.
      * rewrite Hsplit. apply IH; [exact Hx|exact Hlen|exact Hlast].
Qed.


(** [np.argmax] and [np.max] of a non-empty vector: the index holds the
    maximum. *)
Lemma argmax_holds_max (v : array1) :
  v <> [] ->
  exists i m, np_argmax v = Ok i /\ np_max v = Ok m /\ v !! i = Some m.
Proof.
  destruct v as [|x v]; [congruence|]. intros _.
  eexists _, _. split; [reflexivity|]. split; [reflexivity|].
  destruct (is_nan x) eqn:Hx.
  - destruct x; try discriminate. rewrite fold_maximum_nan. reflexivity.
  - apply (argmax_loop_max v [x] x 0 1 Hx); reflexivity.
Qed.


(* ================================================================== *)
(** * The request handler: theorems *)
(* ================================================================== *)

Lemma bind_lift {A B} (r : result A) (k : A -> M B) (w : World) :
  bind (lift r) k w =
    match r with
    | Ok a => k a w
    | Raise e => (Raise e, w)
    end.
Proof. unfold bind, lift. destruct r; reflexivity. Qed.

Lemma lookup_map {A B} (f : A -> B) (l : list A) (i : nat) :
  List.map f l !! i = option_map f (l !! i).
Proof.
  revert i. induction l as [|a l IH]; intros [|i]; simpl; try reflexivity. apply IH.
Qed.

Lemma length_tabulate {A} (n : nat) (f : nat -> A) : length (tabulate n f) = n.
Proof. unfold tabulate. rewrite length_map. apply length_seq. Qed.

Lemma lookup_tabulate {A} (n : nat) (f : nat -> A) (i : nat) :
  i < n -> tabulate n f !! i = Some (f i).
Proof.
  intros Hi. unfold tabulate. rewrite lookup_map.
  rewrite lookup_seq_lt by exact Hi. reflexivity.
Qed.

Lemma head_tabulate {A} (n : nat) (f : nat -> A) : head (tabulate (S n) f) = Some (f 0).
Proof. reflexivity. Qed.

Lemma head_map {A B} (f : A -> B) (l : list A) : head (List.map f l) = option_map f (head l).
Proof. destruct l; reflexivity. Qed.

Lemma head_singleton {A} (a : A) : head [a] = Some a.
Proof. reflexivity. Qed.

Lemma Forall_tabulate {A} (Q : A -> Prop) (n : nat) (f : nat -> A) :
  (forall i, i < n -> Q (f i)) -> Forall Q (tabulate n f).
Proof.
  intros H. unfold tabulate. apply Forall_forall. intros x Hx.
  apply list_elem_of_In, in_map_iff in Hx. destruct Hx as (i & <- & Hi).
  apply H. apply in_seq in Hi. lia.
Qed.

Lemma Forall_map_list {A B} (Q : B -> Prop) (f : A -> B) (l : list A) :
  Forall (fun a => Q (f a)) l -> Forall Q (List.map f l).
Proof. induction 1; simpl; constructor; assumption. Qed.

Section HandlerFacts.
Variable L : Libs.

Lemma preprocess_refines (v : pyvalue) (w : World) :
  preprocess L v w = (preprocess_spec L v, w).
Proof.
  unfold preprocess, preprocess_spec.
  rewrite bind_lift. destruct (b64decode L v) as [image_bytes|e]; [|reflexivity].
  rewrite bind_lift. destruct (Image_open L image_bytes) as [im0|e]; [|reflexivity].
  rewrite bind_lift. destruct (convert L im0 "RGB") as [im1|e]; [|reflexivity].
  rewrite bind_lift. destruct (resize L im1 (224, 224)) as [im2|e]; reflexivity.
Qed.

Lemma convert_mode (im im' : Image) (m : string) :
  convert L im m = Ok im' -> mode im' = m /\ size im' = size im.
Proof.
  unfold convert. destruct (convert_data L im m); intros H; inversion H. split; reflexivity.
Qed.

Lemma resize_size (im im' : Image) (sz : nat * nat) :
  resize L im sz = Ok im' -> mode im' = mode im /\ size im' = sz.
Proof.
  unfold resize. destruct (resize_data L im sz); intros H; inversion H. split; reflexivity.
Qed.

End HandlerFacts.

Lemma batch_shape (im : Image) :
  mode im = "RGB" -> size im = (224, 224) ->
  shape4 (batch_of im) = (1, 224, 224, 3) /\ regular4 (batch_of im) 1 224 224 3.
Proof.
  intros Hm Hs. unfold batch_of, expand_dims, div_255, img_to_array.
  rewrite Hm, Hs. cbn [fst snd].
  replace (nbands "RGB") with 3 by reflexivity.
  split.
  - unfold shape4. rewrite head_singleton. cbn [default from_option id length].
    rewrite head_map, (head_tabulate 223). cbn [option_map default from_option id].
    rewrite head_map, (head_tabulate 223). cbn [option_map default from_option id].
    rewrite !length_map, !length_tabulate. reflexivity.
  - unfold regular4. split; [reflexivity|].
    constructor; [|constructor]. split.
    + rewrite length_map. apply length_tabulate.
    + apply Forall_map_list, Forall_tabulate. intros y _. split.
      * rewrite length_map. apply length_tabulate.
      * apply Forall_map_list, Forall_tabulate. intros x _.
        rewrite length_map. apply length_tabulate.
Qed.

Lemma batch_values (im : Image) :
  mode im = "RGB" -> size im = (224, 224) ->
  Forall4 (fun p => in_unit_interval p = true) (batch_of im) /\
  forall y x c, y < 224 -> x < 224 -> c < 3 ->
    at4 (batch_of im) 0 y x c =
      Some (f32_div (f32_of_Z (Z.of_N (Byte.to_N (getpixel im x y c)))) (f32_of_Z 255)).
Proof.
  intros Hm Hs. unfold batch_of, expand_dims, div_255, img_to_array.
  rewrite Hm, Hs. cbn [fst snd].
  replace (nbands "RGB") with 3 by reflexivity.
  split.
  - unfold Forall4. constructor; [|constructor].
    apply Forall_map_list, Forall_tabulate. intros y _.
    apply Forall_map_list, Forall_tabulate. intros x _.
    apply Forall_map_list, Forall_tabulate. intros c _.
    apply byte_scaled_in_unit_interval.
  - intros y x c Hy Hx Hc. unfold at4. cbn [lookup list_lookup mbind option_bind].
    rewrite lookup_map, lookup_tabulate by exact Hy. cbn [option_map mbind option_bind].
    rewrite lookup_map, lookup_tabulate by exact Hx. cbn [option_map mbind option_bind].
    rewrite lookup_map, lookup_tabulate by exact Hc. reflexivity.
Qed.

Section HandlerOutcome.
Variable L : Libs.

Lemma bind_preprocess {B} (v : pyvalue) (k : list (list (list (list spec_float))) -> M B) (w : World) :
  bind (preprocess L v) k w =
    match preprocess_spec L v with
    | Ok t => k t w
    | Raise e => (Raise e, w)
    end.
Proof.
  unfold bind. rewrite preprocess_refines.
  destruct (preprocess_spec L v); reflexivity.
Qed.

Lemma valid_image_preprocess (request : Request) (im : Image) :
  valid_image_request L request im ->
  exists d v,
    get_json L request = Ok (PyDict d) /\ d !! "image" = Some v /\
    preprocess_spec L v = Ok (batch_of im).
Proof.
  intros (d & v & image_bytes & im0 & im1 & Hjson & Hfield & Hb64 & Hopen & Hconv & Hres).
  exists d, v. split; [exact Hjson|]. split; [exact Hfield|].
  unfold preprocess_spec. rewrite Hb64, Hopen, Hconv, Hres. reflexivity.
Qed.

(** The statements under [try] do not touch the world, and a response they
    return is a success body. *)
Lemma detect_try_outcome (request : Request) (w : World) :
  (exists e, detect_try L request w = (Raise e, w)) \/
  (exists prediction confidence,
     detect_try L request w = (Ok (jsonify (success_body prediction confidence)), w)).
Proof.
  unfold detect_try.
  rewrite bind_lift. destruct (get_json L request) as [data|e]; [|left; eauto].
  rewrite bind_lift. destruct (getitem data "image") as [v|e]; [|left; eauto].
  rewrite bind_preprocess. destruct (preprocess_spec L v) as [t|e]; [|left; eauto].
  rewrite bind_lift. destruct (model_predict L t) as [preds|e]; [|left; eauto].
  rewrite bind_lift. destruct (first_row preds) as [row|e]; [|left; eauto].
  rewrite bind_lift. destruct (np_argmax row) as [i|e]; [|left; eauto].
  rewrite bind_lift.
  rewrite bind_lift. destruct (np_max row) as [m|e]; [|left; eauto].
  rewrite bind_lift. destruct (list_getitem class_labels i) as [label|e]; [|left; eauto].
  right. eauto.
Qed.

Lemma detect_of_try_raise (request : Request) (w : World) (e : exn) :
  detect_try L request w = (Raise e, w) ->
  detect L request w = (Ok (jsonify (error_body (str e))), w).
Proof. intros H. unfold detect, try_except. rewrite H. reflexivity. Qed.

Lemma detect_of_try_ok (request : Request) (w : World) (resp : Response) :
  detect_try L request w = (Ok resp, w) ->
  detect L request w = (Ok resp, w).
Proof. intros H. unfold detect, try_except. rewrite H. reflexivity. Qed.

Lemma detect_frame (request : Request) (w : World) :
  exists resp, detect L request w = (Ok resp, w).
Proof.
  destruct (detect_try_outcome request w) as [[e H]|(p & c & H)].
  - eexists. apply detect_of_try_raise. exact H.
  - eexists. apply detect_of_try_ok. exact H.
Qed.

Lemma serve_frame (requests : list Request) (w : World) :
  snd (serve L requests w) = w.
Proof.
  revert w. induction requests as [|r rs IH]; intros w; [reflexivity|].
  simpl. unfold bind at 1. destruct (detect_frame r w) as [resp ->].
  unfold bind at 1. specialize (IH w).
  destruct (serve L rs w) as [[resps|e] w']; simpl in IH; subst; reflexivity.
Qed.

(** The handler on a request that reaches the model and whose prediction
    row has an argmax inside the label list. *)
Lemma detect_on_row (request : Request) (im : Image) (preds : list (list spec_float))
    (row : list spec_float) (i : nat) (m : spec_float) (label : string) (w : World) :
  valid_image_request L request im ->
  model_predict L (batch_of im) = Ok preds ->
  first_row preds = Ok row ->
  np_argmax row = Ok i ->
  np_max row = Ok m ->
  class_labels !! i = Some label ->
  detect L request w = (Ok (jsonify (success_body label (float m))), w).
Proof.
  intros Hvalid Hpred Hrow Hi Hm Hlabel.
  destruct (valid_image_preprocess request im Hvalid) as (d & v & Hjson & Hfield & Hpre).
  apply detect_of_try_ok. unfold detect_try.
  rewrite bind_lift, Hjson. cbv beta iota.
  rewrite bind_lift. unfold getitem. rewrite Hfield. cbv beta iota.
  rewrite bind_preprocess, Hpre. cbv beta iota.
  rewrite bind_lift, Hpred. cbv beta iota.
  rewrite bind_lift, Hrow. cbv beta iota.
  rewrite bind_lift, Hi. cbv beta iota.
  rewrite bind_lift. cbv beta iota.
  rewrite bind_lift, Hm. cbv beta iota.
  rewrite bind_lift. unfold list_getitem. rewrite Hlabel. reflexivity.
Qed.

Lemma probability_vector_not_nan (row : list spec_float) :
  probability_vector row ->
  row <> [] /\ Forall (fun x => is_nan x = false) row.
Proof.
  intros [Hlen Hall]. split.
  - intros ->. discriminate Hlen.
  - eapply Forall_impl; [exact Hall|]. intros x Hx. apply in_unit_interval_not_nan. exact Hx.
Qed.

(** C1: for a request whose JSON body is an object with an ['image'] field
    holding base64 text of image bytes that Pillow opens, converts and
    resizes, and when the forward pass of the model returns a probability
    vector over the label set, [detect] returns a response of status code 200
    whose JSON body has status "success", a prediction that is one of the two
    labels "mask" and "no_mask", and a confidence between 0.0 and 1.0. *)
Theorem detect_classifies_valid_image (request : Request) (im : Image)
    (preds : list (list spec_float)) (row : list spec_float) (w : World) :
  valid_image_request L request im ->
  model_predict L (batch_of im) = Ok preds ->
  first_row preds = Ok row ->
  probability_vector row ->
  exists prediction confidence,
    detect L request w =
      (Ok (mkResponse 200 (PyDict (success_body prediction confidence))), w) /\
    success_body prediction confidence !! "status" = Some (PyStr "success") /\
    success_body prediction confidence !! "prediction" = Some (PyStr prediction) /\
    success_body prediction confidence !! "confidence" = Some (PyFloat confidence) /\
    In prediction class_labels /\
    (prediction = "mask" \/ prediction = "no_mask") /\
    in_unit_interval confidence = true.
Proof.
  intros Hvalid Hpred Hrow Hprob.
  destruct (probability_vector_not_nan row Hprob) as [Hne Hnan].
  destruct (argmax_holds_max row Hne) as (i & m & Hi & Hm & Him).
  destruct Hprob as [Hlen Hunit].
  assert (Hlt : i < length class_labels).
  { rewrite <- Hlen. eapply lookup_lt_Some. exact Him. }
  destruct (lookup_lt_is_Some_2 class_labels i Hlt) as [label Hlabel].
  exists label, (float m). split.
  { eapply detect_on_row; eassumption. }
  assert (Hin : In label class_labels).
  { apply list_elem_of_In. eapply list_elem_of_lookup_2. exact Hlabel. }
  unfold success_body.
  split; [apply lookup_insert_eq|].
  split; [rewrite lookup_insert_ne by discriminate; apply lookup_insert_eq|].
  split; [rewrite !lookup_insert_ne by discriminate; apply lookup_insert_eq|].
  split; [|split].
  - exact Hin.
  - destruct Hin as [<-|[<-|[]]]; [left|right]; reflexivity.
  - unfold float. rewrite Forall_forall in Hunit. apply Hunit.
    eapply list_elem_of_lookup_2. exact Him.
Qed.

End HandlerOutcome.

Section HandlerClaims.
Variable L : Libs.

(** C2: whatever the request and whatever the libraries do, [detect] returns
    a response with status code 200 and never raises.  The response is either
    the success body built under [try], or, when a statement under [try]
    raises [e], the body with status "error" and message [str(e)].  This
    holds in particular when the exception comes from parsing the JSON body,
    from the lookup of ['image'], from the base64 decoding, from opening or
    converting the image, or from the model. *)
Theorem detect_catches_every_exception (request : Request) (w : World) :
  (exists resp,
     detect L request w = (Ok resp, w) /\
     status_code resp = 200%Z /\
     ((exists prediction confidence,
         detect_try L request w = (Ok resp, w) /\
         json resp = PyDict (success_body prediction confidence)) \/
      (exists e,
         detect_try L request w = (Raise e, w) /\
         json resp = PyDict (error_body (str e)) /\
         error_body (str e) !! "status" = Some (PyStr "error") /\
         error_body (str e) !! "message" = Some (PyStr (str e))))) /\
  (forall e w', detect L request w <> (Raise e, w')) /\
  (forall e, get_json L request = Raise e ->
     detect L request w = (Ok (jsonify (error_body (str e))), w)) /\
  (forall data e, get_json L request = Ok data ->
     getitem data "image" = Raise e ->
     detect L request w = (Ok (jsonify (error_body (str e))), w)) /\
  (forall data v e, get_json L request = Ok data ->
     getitem data "image" = Ok v ->
     b64decode L v = Raise e ->
     detect L request w = (Ok (jsonify (error_body (str e))), w)) /\
  (forall data v image_bytes e, get_json L request = Ok data ->
     getitem data "image" = Ok v ->
     b64decode L v = Ok image_bytes ->
     Image_open L image_bytes = Raise e ->
     detect L request w = (Ok (jsonify (error_body (str e))), w)) /\
  (forall data v image_bytes im0 e, get_json L request = Ok data ->
     getitem data "image" = Ok v ->
     b64decode L v = Ok image_bytes ->
     Image_open L image_bytes = Ok im0 ->
     convert L im0 "RGB" = Raise e ->
     detect L request w = (Ok (jsonify (error_body (str e))), w)) /\
  (forall im e, valid_image_request L request im ->
     model_predict L (batch_of im) = Raise e ->
     detect L request w = (Ok (jsonify (error_body (str e))), w)).
Proof.
  split.
  { destruct (detect_try_outcome L request w) as [[e H]|(p & c & H)].
    - exists (jsonify (error_body (str e))).
      split; [apply detect_of_try_raise; exact H|].
      split; [reflexivity|]. right. exists e.
      split; [exact H|]. split; [reflexivity|]. unfold error_body.
      split; [apply lookup_insert_eq|].
      rewrite lookup_insert_ne by discriminate. apply lookup_insert_eq.
    - exists (jsonify (success_body p c)).
      split; [apply detect_of_try_ok; exact H|].
      split; [reflexivity|]. left. exists p, c. split; [exact H|reflexivity]. }
  split.
  { intros e w' H. destruct (detect_frame L request w) as [resp Hr].
    rewrite Hr in H. discriminate. }
  repeat split.
  - intros e Hjson. apply detect_of_try_raise. unfold detect_try.
    rewrite bind_lift, Hjson. reflexivity.
  - intros data e Hjson Hfield. apply detect_of_try_raise. unfold detect_try.
    rewrite bind_lift, Hjson. cbv beta iota.
    rewrite bind_lift, Hfield. reflexivity.
  - intros data v e Hjson Hfield Hb64. apply detect_of_try_raise. unfold detect_try.
    rewrite bind_lift, Hjson. cbv beta iota.
    rewrite bind_lift, Hfield. cbv beta iota.
    rewrite bind_preprocess. unfold preprocess_spec. rewrite Hb64. reflexivity.
  - intros data v image_bytes e Hjson Hfield Hb64 Hopen.
    apply detect_of_try_raise. unfold detect_try.
    rewrite bind_lift, Hjson. cbv beta iota.
    rewrite bind_lift, Hfield. cbv beta iota.
    rewrite bind_preprocess. unfold preprocess_spec. rewrite Hb64, Hopen. reflexivity.
  - intros data v image_bytes im0 e Hjson Hfield Hb64 Hopen Hconv.
    apply detect_of_try_raise. unfold detect_try.
    rewrite bind_lift, Hjson. cbv beta iota.
    rewrite bind_lift, Hfield. cbv beta iota.
    rewrite bind_preprocess. unfold preprocess_spec. rewrite Hb64, Hopen, Hconv. reflexivity.
  - intros im e Hvalid Hpred.
    destruct (valid_image_preprocess L request im Hvalid) as (d & v & Hjson & Hfield & Hpre).
    apply detect_of_try_raise. unfold detect_try.
    rewrite bind_lift, Hjson. cbv beta iota.
    rewrite bind_lift. unfold getitem. rewrite Hfield. cbv beta iota.
    rewrite bind_preprocess, Hpre. cbv beta iota.
    rewrite bind_lift, Hpred. reflexivity.
Qed.

(** C3: on an input that every step accepts, the code of lines 86-92 computes
    what the pipeline of the specification computes, step by step: the
    base64 text is decoded to bytes, the bytes are opened as an image, the
    image is converted to mode RGB, the RGB image is resized to 224 by 224
    whatever its size was, and the batch is the one-element array holding, at
    row [y], column [x], band [c], the float32 value of that band of that
    pixel of the resized image divided by 255: nothing else is subtracted or
    scaled.  The batch has shape (1, 224, 224, 3) and all its elements lie
    between 0 and 1. *)
Theorem preprocess_pipeline (v : pyvalue) (w : World) (image_bytes : list Byte.byte)
    (im0 im1 im2 : Image) :
  b64decode L v = Ok image_bytes ->
  Image_open L image_bytes = Ok im0 ->
  convert L im0 "RGB" = Ok im1 ->
  resize L im1 (224, 224) = Ok im2 ->
  preprocess L v w = (preprocess_spec L v, w) /\
  preprocess_spec L v = Ok (batch_of im2) /\
  mode im1 = "RGB" /\ size im1 = size im0 /\
  mode im2 = "RGB" /\ size im2 = (224, 224) /\
  shape4 (batch_of im2) = (1, 224, 224, 3) /\
  regular4 (batch_of im2) 1 224 224 3 /\
  Forall4 (fun p => in_unit_interval p = true) (batch_of im2) /\
  forall y x c, y < 224 -> x < 224 -> c < 3 ->
    at4 (batch_of im2) 0 y x c =
      Some (f32_div (f32_of_Z (Z.of_N (Byte.to_N (getpixel im2 x y c)))) (f32_of_Z 255)).
Proof.
  intros Hb64 Hopen Hconv Hres.
  destruct (convert_mode L _ _ _ Hconv) as [Hm1 Hs1].
  destruct (resize_size L _ _ _ Hres) as [Hm2 Hs2].
  rewrite Hm1 in Hm2.
  destruct (batch_shape im2 Hm2 Hs2) as [Hshape Hreg].
  destruct (batch_values im2 Hm2 Hs2) as [Hunit Hat].
  split; [apply preprocess_refines|].
  split; [unfold preprocess_spec; rewrite Hb64, Hopen, Hconv, Hres; reflexivity|].
  repeat (split; [assumption|]). exact Hat.
Qed.


(** C5: when the JSON body is an object without the key ['image'], the
    lookup [data['image']] raises a [KeyError] and [detect] returns the body
    with status "error" (and the text of the [KeyError] as message). *)
Theorem detect_missing_image_field (request : Request) (d : gmap string pyvalue) (w : World) :
  get_json L request = Ok (PyDict d) ->
  d !! "image" = None ->
  getitem (PyDict d) "image" = Raise (mkKeyError "image") /\
  exc_type (mkKeyError "image") = KeyError /\
  detect L request w = (Ok (jsonify (error_body "'image'")), w) /\
  json (jsonify (error_body "'image'")) = PyDict (error_body "'image'") /\
  error_body "'image'" !! "status" = Some (PyStr "error").
Proof.
  intros Hjson Hnone.
  assert (Hget : getitem (PyDict d) "image" = Raise (mkKeyError "image"))
    by (unfold getitem; rewrite Hnone; reflexivity).
  split; [exact Hget|]. split; [reflexivity|].
  split.
  - change "'image'" with (str (mkKeyError "image")).
    apply detect_of_try_raise. unfold detect_try.
    rewrite bind_lift, Hjson. cbv beta iota.
    rewrite bind_lift, Hget. reflexivity.
  - split; [reflexivity|]. apply lookup_insert_eq.
Qed.


End HandlerClaims.

(* ================================================================== *)
(** * The handler on the concrete setting *)
(* ================================================================== *)

Lemma demo_request_valid : valid_image_request demo_libs demo_request demo_resized.
Proof.
  exists (<["image" := PyStr "yA=="]> ∅), (PyStr "yA=="), [Byte.xc8], demo_opened, demo_rgb.
  repeat split; vm_compute; reflexivity.
Qed.

Lemma demo_row_probability :
  probability_vector [S754_finite false 8388608 (-25); S754_finite false 12582912 (-24)].
Proof.
  split; [reflexivity|]. repeat constructor.
Qed.

Lemma detect_classifies_valid_image_witness :
  exists prediction confidence,
    detect demo_libs demo_request empty_world =
      (Ok (mkResponse 200 (PyDict (success_body prediction confidence))), empty_world) /\
    success_body prediction confidence !! "status" = Some (PyStr "success") /\
    success_body prediction confidence !! "prediction" = Some (PyStr prediction) /\
    success_body prediction confidence !! "confidence" = Some (PyFloat confidence) /\
    In prediction class_labels /\
    (prediction = "mask" \/ prediction = "no_mask") /\
    in_unit_interval confidence = true.
Proof.
  apply (detect_classifies_valid_image demo_libs demo_request demo_resized
           [[S754_finite false 8388608 (-25); S754_finite false 12582912 (-24)]]
           [S754_finite false 8388608 (-25); S754_finite false 12582912 (-24)]
           empty_world).
  - exists (<["image" := PyStr "yA=="]> ∅), (PyStr "yA=="), [Byte.xc8], demo_opened, demo_rgb.
    repeat split; vm_compute; reflexivity.
  - reflexivity.
  - reflexivity.
  - split; [reflexivity|]. repeat constructor.
Defined.

Lemma detect_catches_every_exception_witness :
  detect demo_libs (mkRequest "text/plain" []) empty_world =
    (Ok (jsonify (error_body "415 Unsupported Media Type")), empty_world).
Proof.
  apply (proj1 (proj2 (proj2
           (detect_catches_every_exception demo_libs (mkRequest "text/plain" []) empty_world)))
           (Exc UnsupportedMediaType "415 Unsupported Media Type")).
  vm_compute. reflexivity.
Defined.

Lemma preprocess_pipeline_witness :
  preprocess demo_libs (PyStr "yA==") empty_world = (Ok (batch_of demo_resized), empty_world) /\
  shape4 (batch_of demo_resized) = (1, 224, 224, 3) /\
  Forall4 (fun p => in_unit_interval p = true) (batch_of demo_resized) /\
  at4 (batch_of demo_resized) 0 5 7 2 =
    Some (f32_div (f32_of_Z 200) (f32_of_Z 255)).
Proof.
  destruct (preprocess_pipeline demo_libs (PyStr "yA==") empty_world [Byte.xc8]
              demo_opened demo_rgb demo_resized)
    as (Hrun & Hspec & _ & _ & _ & _ & Hshape & _ & Hunit & Hat);
    [reflexivity | reflexivity | reflexivity | reflexivity |].
  split; [rewrite Hrun, Hspec; reflexivity|].
  split; [exact Hshape|]. split; [exact Hunit|].
  apply (Hat 5 7 2); lia.
Defined.


Lemma detect_missing_image_field_witness :
  getitem (PyDict ∅) "image" = Raise (mkKeyError "image") /\
  exc_type (mkKeyError "image") = KeyError /\
  detect demo_libs empty_object_request empty_world =
    (Ok (jsonify (error_body "'image'")), empty_world) /\
  json (jsonify (error_body "'image'")) = PyDict (error_body "'image'") /\
  error_body "'image'" !! "status" = Some (PyStr "error").
Proof.
  apply (detect_missing_image_field demo_libs empty_object_request ∅ empty_world).
  - vm_compute. reflexivity.
  - reflexivity.
Defined.

(* ================================================================== *)
(** * Certificate provisioning: what a run leaves behind *)
(* ================================================================== *)

Section ProvisioningRuns.
Variable P : Platform.

Ltac run_step :=
  first [ rewrite bind_assoc
        | rewrite bind_ret
        | rewrite (bind_call_lib P)
        | rewrite (bind_open_wb P)
        | rewrite (bind_file_write P)
        | rewrite (bind_utcnow P)
        | rewrite (bind_draw P) ];
  cbn [files clock_reads rng_draws b_subject b_issuer b_public_key b_serial
       b_not_valid_before b_not_valid_after b_extensions new_builder app].

Ltac close_run :=
  unfold generate_steps, disk_after; cbn [first_fault];
  repeat match goal with
         | H : fault P _ = _ |- _ => rewrite H; clear H
         end;
  cbn [fst snd files]; rewrite ?insert_insert_eq; split; reflexivity.

Ltac split_fault :=
  match goal with
  | |- context [match fault P ?s with _ => _ end] =>
      destruct (fault P s) eqn:?; [solve [close_run] | ]
  end.

Lemma generate_run (cert_file key_file : string) (w : World) :
  fst (generate_self_signed_cert P cert_file key_file w) =
    match first_fault P (generate_steps cert_file key_file) with
    | Some e => Raise e
    | None => Ok tt
    end /\
  files (snd (generate_self_signed_cert P cert_file key_file w)) =
    disk_after P cert_file key_file w.
Proof.
  unfold generate_self_signed_cert, rsa_generate_private_key,
    random_serial_number, private_bytes, public_bytes, subject_name, issuer_name,
    builder_public_key, serial_number, not_valid_before, not_valid_after,
    add_extension.
  do 12 (repeat run_step; try split_fault).
  unfold sign.
  cbn [b_subject b_issuer b_public_key b_serial b_not_valid_before
       b_not_valid_after b_extensions].
  do 3 (repeat run_step; try split_fault).
  unfold file_write.
  destruct (fault P (WriteFile cert_file)) eqn:?; close_run.
Qed.
End ProvisioningRuns.

Lemma first_fault_app (P : Platform) (a b : list Step) :
  first_fault P (a ++ b) =
    match first_fault P a with
    | Some e => Some e
    | None => first_fault P b
    end.
Proof.
  induction a as [|s a IH]; simpl; [reflexivity|].
  destruct (fault P s); [reflexivity|exact IH].
Qed.

Lemma ensure_skips (P : Platform) (w : World) :
  is_Some (files w !! "cert.pem") ->
  is_Some (files w !! "key.pem") ->
  ensure_certificate P w = (Ok tt, w).
Proof.
  intros Hc Hk. unfold ensure_certificate, os_path_exists, bind, ret. simpl.
  rewrite (bool_decide_eq_true_2 _ Hc). simpl.
  rewrite (bool_decide_eq_true_2 _ Hk). reflexivity.
Qed.

Lemma ensure_cases (P : Platform) (w : World) :
  (is_Some (files w !! "cert.pem") /\ is_Some (files w !! "key.pem") /\
   ensure_certificate P w = (Ok tt, w)) \/
  ((files w !! "cert.pem" = None \/ files w !! "key.pem" = None) /\
   ensure_certificate P w = generate_self_signed_cert P "cert.pem" "key.pem" w).
Proof.
  destruct (files w !! "cert.pem") as [c|] eqn:Hc.
  - destruct (files w !! "key.pem") as [k|] eqn:Hk.
    + left. split; [eauto|]. split; [eauto|].
      apply ensure_skips; [rewrite Hc|rewrite Hk]; eauto.
    + right. split; [right; reflexivity|].
      apply ensure_runs_generate. right. exact Hk.
  - right. split; [left; reflexivity|].
    apply ensure_runs_generate. left. exact Hc.
Qed.

Section ProvisioningEdges.
Variable P : Platform.

(** X1: [generate_self_signed_cert] handles no exception.  It raises the
    exception of the first call, in program order, that fails, and it returns
    normally exactly when no call fails. *)
Theorem generate_raises_first_failure (cert_file key_file : string) (w : World) :
  (forall e, fst (generate_self_signed_cert P cert_file key_file w) = Raise e <->
             first_fault P (generate_steps cert_file key_file) = Some e) /\
  (fst (generate_self_signed_cert P cert_file key_file w) = Ok tt <->
   first_fault P (generate_steps cert_file key_file) = None).
Proof.
  destruct (generate_run P cert_file key_file w) as [Hr _]. rewrite Hr.
  destruct (first_fault P (generate_steps cert_file key_file)) as [e'|];
    split; try intros e; split; intros H; try congruence; try reflexivity.
Qed.

Lemma generate_frame (cert_file key_file path : string) (w : World) :
  path <> cert_file ->
  path <> key_file ->
  files (snd (generate_self_signed_cert P cert_file key_file w)) !! path = files w !! path.
Proof.
  intros Hc Hk.
  destruct (generate_run P cert_file key_file w) as [_ Hd]. rewrite Hd. unfold disk_after.
  repeat match goal with
         | |- context [match first_fault P ?l with _ => _ end] =>
             destruct (first_fault P l)
         end;
  rewrite ?lookup_insert_ne by congruence; reflexivity.
Qed.

(** X2: whatever happens, provisioning touches no file but [cert.pem] and
    [key.pem]: every other path holds after the run what it held before,
    whether the run ends normally or with an exception. *)
Theorem provisioning_touches_only_its_files (path : string) (w : World) :
  path <> "cert.pem" ->
  path <> "key.pem" ->
  files (snd (ensure_certificate P w)) !! path = files w !! path /\
  files (snd (generate_self_signed_cert P "cert.pem" "key.pem" w)) !! path =
    files w !! path.
Proof.
  intros Hc Hk. split; [|apply generate_frame; assumption].
  destruct (ensure_cases P w) as [(_ & _ & ->)|[_ ->]]; [reflexivity|].
  apply generate_frame; assumption.
Qed.

(** X3: when key generation fails, or when the key file cannot be opened,
    the run ends with that exception and no file has changed. *)
Theorem failure_before_key_file_changes_nothing
    (cert_file key_file : string) (w : World) (e : exn) :
  first_fault P [CallLib "rsa.generate_private_key"; OpenFile key_file] = Some e ->
  fst (generate_self_signed_cert P cert_file key_file w) = Raise e /\
  files (snd (generate_self_signed_cert P cert_file key_file w)) = files w.
Proof.
  intros Hf. destruct (generate_run P cert_file key_file w) as [Hr Hd].
  rewrite Hr, Hd. unfold disk_after. rewrite Hf.
  change (generate_steps cert_file key_file) with
    ([CallLib "rsa.generate_private_key"; OpenFile key_file] ++
     skipn 2 (generate_steps cert_file key_file)).
  rewrite first_fault_app, Hf. split; reflexivity.
Qed.

(** X4: once the key file is opened its old content is gone.  When
    serialising or writing the key then fails, the run ends with that
    exception, the key file exists and is empty, whatever it held, and the
    certificate file is as it was. *)
Theorem failed_key_write_truncates_key_file
    (cert_file key_file : string) (w : World) (e : exn) :
  cert_file <> key_file ->
  first_fault P [CallLib "rsa.generate_private_key"; OpenFile key_file] = None ->
  first_fault P [CallLib "private_bytes"; WriteFile key_file] = Some e ->
  fst (generate_self_signed_cert P cert_file key_file w) = Raise e /\
  files (snd (generate_self_signed_cert P cert_file key_file w)) !! key_file =
    Some (Bytes []) /\
  files (snd (generate_self_signed_cert P cert_file key_file w)) !! cert_file =
    files w !! cert_file.
Proof.
  intros Hne Hf1 Hf2. destruct (generate_run P cert_file key_file w) as [Hr Hd].
  rewrite Hr, Hd. unfold disk_after. rewrite Hf1, Hf2.
  change (generate_steps cert_file key_file) with
    ([CallLib "rsa.generate_private_key"; OpenFile key_file] ++
     [CallLib "private_bytes"; WriteFile key_file] ++
     skipn 4 (generate_steps cert_file key_file)).
  rewrite !first_fault_app, Hf1, Hf2.
  split; [reflexivity|]. split; [apply lookup_insert_eq|].
  apply lookup_insert_ne. congruence.
Qed.

(** X5: a run that fails after [cert.pem] was opened for writing leaves an
    empty [cert.pem] next to the new key, and since lines 69-70 only test
    that the two files exist, every later start skips provisioning: the
    empty certificate file is never replaced. *)
Theorem empty_certificate_is_never_repaired (w : World) (e : exn) (P' : Platform) :
  files w !! "cert.pem" = None \/ files w !! "key.pem" = None ->
  first_fault P (key_steps ++ build_steps ++ [OpenFile "cert.pem"]) = None ->
  first_fault P [CallLib "public_bytes"; WriteFile "cert.pem"] = Some e ->
  fst (ensure_certificate P w) = Raise e /\
  files (snd (ensure_certificate P w)) !! "cert.pem" = Some (Bytes []) /\
  files (snd (ensure_certificate P w)) !! "key.pem" =
    Some (KeyBytes (fresh_key P w) PEM TraditionalOpenSSL NoEncryption) /\
  ensure_certificate P' (snd (ensure_certificate P w)) =
    (Ok tt, snd (ensure_certificate P w)).
Proof.
  intros Hmiss Hf1 Hf2.
  rewrite (ensure_runs_generate P w Hmiss).
  destruct (generate_run P "cert.pem" "key.pem" w) as [Hr Hd].
  change (key_steps ++ build_steps ++ [OpenFile "cert.pem"]) with
    ([CallLib "rsa.generate_private_key"; OpenFile "key.pem"] ++
     [CallLib "private_bytes"; WriteFile "key.pem"] ++
     [ CallLib "subject_name"; CallLib "issuer_name"; CallLib "public_key";
       CallLib "x509.random_serial_number"; CallLib "serial_number";
       CallLib "not_valid_before"; CallLib "not_valid_after";
       CallLib "add_extension"; CallLib "sign"; OpenFile "cert.pem" ]) in Hf1.
  rewrite !first_fault_app in Hf1.
  destruct (first_fault P [CallLib "rsa.generate_private_key"; OpenFile "key.pem"])
    eqn:Ha; [discriminate|].
  destruct (first_fault P [CallLib "private_bytes"; WriteFile "key.pem"])
    eqn:Hb; [discriminate|].
  assert (Hfiles : files (snd (generate_self_signed_cert P "cert.pem" "key.pem" w)) =
            <["cert.pem" := Bytes []]>
              (<["key.pem" := KeyBytes (fresh_key P w) PEM TraditionalOpenSSL NoEncryption]>
                 (files w))).
  { rewrite Hd. unfold disk_after. rewrite Ha, Hb, Hf1, Hf2. reflexivity. }
  assert (Hcert : files (snd (generate_self_signed_cert P "cert.pem" "key.pem" w)) !! "cert.pem" =
            Some (Bytes [])).
  { rewrite Hfiles. apply lookup_insert_eq. }
  assert (Hkey : files (snd (generate_self_signed_cert P "cert.pem" "key.pem" w)) !! "key.pem" =
            Some (KeyBytes (fresh_key P w) PEM TraditionalOpenSSL NoEncryption)).
  { rewrite Hfiles. rewrite lookup_insert_ne by discriminate. apply lookup_insert_eq. }
  split.
  { rewrite Hr.
    change (generate_steps "cert.pem" "key.pem") with
      ([CallLib "rsa.generate_private_key"; OpenFile "key.pem"] ++
       [CallLib "private_bytes"; WriteFile "key.pem"] ++
       [ CallLib "subject_name"; CallLib "issuer_name"; CallLib "public_key";
         CallLib "x509.random_serial_number"; CallLib "serial_number";
         CallLib "not_valid_before"; CallLib "not_valid_after";
         CallLib "add_extension"; CallLib "sign"; OpenFile "cert.pem" ] ++
       [CallLib "public_bytes"; WriteFile "cert.pem"]).
    rewrite !first_fault_app, Ha, Hb, Hf1, Hf2. reflexivity. }
  split; [exact Hcert|]. split; [exact Hkey|].
  apply ensure_skips; [rewrite Hcert|rewrite Hkey]; eauto.
Qed.

Lemma ensure_ok_both_exist (w w' : World) :
  ensure_certificate P w = (Ok tt, w') ->
  is_Some (files w' !! "cert.pem") /\ is_Some (files w' !! "key.pem").
Proof.
  intros Hrun.
  destruct (ensure_cases P w) as [(Hc & Hk & Heq)|[_ Heq]].
    - rewrite Heq in Hrun. inversion Hrun; subst. split; assumption.
    - rewrite Heq in Hrun.
      destruct (generate_run P "cert.pem" "key.pem" w) as [Hr Hd].
      rewrite Hrun in Hr, Hd. cbn [fst snd] in Hr, Hd.
      change (generate_steps "cert.pem" "key.pem") with
        ([CallLib "rsa.generate_private_key"; OpenFile "key.pem"] ++
         [CallLib "private_bytes"; WriteFile "key.pem"] ++
         [ CallLib "subject_name"; CallLib "issuer_name"; CallLib "public_key";
           CallLib "x509.random_serial_number"; CallLib "serial_number";
           CallLib "not_valid_before"; CallLib "not_valid_after";
           CallLib "add_extension"; CallLib "sign"; OpenFile "cert.pem" ] ++
         [CallLib "public_bytes"; WriteFile "cert.pem"]) in Hr.
      rewrite !first_fault_app in Hr. unfold disk_after in Hd.
      destruct (first_fault P [CallLib "rsa.generate_private_key"; OpenFile "key.pem"]);
        [discriminate|].
      destruct (first_fault P [CallLib "private_bytes"; WriteFile "key.pem"]);
        [discriminate|].
      destruct (first_fault P
                  [ CallLib "subject_name"; CallLib "issuer_name"; CallLib "public_key";
                    CallLib "x509.random_serial_number"; CallLib "serial_number";
                    CallLib "not_valid_before"; CallLib "not_valid_after";
                    CallLib "add_extension"; CallLib "sign"; OpenFile "cert.pem" ]);
        [discriminate|].
      destruct (first_fault P [CallLib "public_bytes"; WriteFile "cert.pem"]);
        [discriminate|].
      rewrite Hd. split.
      + rewrite lookup_insert_eq. eauto.
      + rewrite lookup_insert_ne by discriminate. rewrite lookup_insert_eq. eauto.
Qed.

(** X6: when the provisioning of lines 69-70 returns normally, both
    [cert.pem] and [key.pem] exist, whatever the directory held before, and a
    later start, on any platform, finds them and changes nothing. *)
Theorem completed_provisioning_is_stable (w w' : World) (P' : Platform) :
  ensure_certificate P w = (Ok tt, w') ->
  is_Some (files w' !! "cert.pem") /\
  is_Some (files w' !! "key.pem") /\
  ensure_certificate P' w' = (Ok tt, w').
Proof.
  intros Hrun.
  destruct (ensure_ok_both_exist w w' Hrun) as [Hc Hk].
  split; [exact Hc|]. split; [exact Hk|].
  apply ensure_skips; assumption.
Qed.

Lemma drop_microseconds_le (t : Z) :
  (drop_microseconds t <= t < drop_microseconds t + 1000000)%Z.
Proof.
  unfold drop_microseconds.
  pose proof (Z.mod_pos_bound t 1000000 ltac:(lia)). lia.
Qed.

Lemma drop_microseconds_mono (t1 t2 : Z) :
  (t1 <= t2)%Z -> (drop_microseconds t1 <= drop_microseconds t2)%Z.
Proof.
  intros H. unfold drop_microseconds.
  rewrite (Z.div_mod t1 1000000) at 1 by lia.
  rewrite (Z.div_mod t2 1000000) at 1 by lia.
  pose proof (Z.div_le_mono t1 t2 1000000 ltac:(lia) H). lia.
Qed.

(** X7: when a file is missing, no call fails and the clock does not go
    back between the two readings of lines 60-61, the certificate written to
    [cert.pem] is valid from a time that is not after the first reading, for
    not less than 365 days, and not beyond 365 days after the second
    reading. *)
Theorem certificate_valid_at_least_365_days (w : World) :
  files w !! "cert.pem" = None \/ files w !! "key.pem" = None ->
  (forall s, fault P s = None) ->
  (clock P (clock_reads w) <= clock P (S (clock_reads w)))%Z ->
  exists cert w',
    ensure_certificate P w = (Ok tt, w') /\
    files w' !! "cert.pem" = Some (CertBytes cert PEM) /\
    (not_valid_before_of cert <= clock P (clock_reads w))%Z /\
    (timedelta_days 365 <= not_valid_after_of cert - not_valid_before_of cert)%Z /\
    (not_valid_after_of cert <= clock P (S (clock_reads w)) + timedelta_days 365)%Z.
Proof.
  intros Hmiss Hnf Hclock.
  exists (fresh_cert P w). eexists. split.
  { rewrite (ensure_runs_generate P w Hmiss). apply generate_ok. exact Hnf. }
  split; [apply lookup_insert_eq|]. simpl.
  rewrite drop_microseconds_plus_days.
  pose proof (drop_microseconds_le (clock P (clock_reads w))).
  pose proof (drop_microseconds_le (clock P (S (clock_reads w)))).
  pose proof (drop_microseconds_mono _ _ Hclock).
  repeat split; lia.
Qed.

End ProvisioningEdges.

(* ================================================================== *)
(** * The request handler: edges *)
(* ================================================================== *)




Section HandlerEdges.
Variable L : Libs.

(** X8: a JSON body that is not an object (a list, a string, a number, a
    boolean or null) makes the lookup [data['image']] raise a [TypeError],
    and [detect] answers with the error body carrying its text. *)
Theorem body_not_an_object_is_an_error (request : Request) (data : pyvalue) (w : World) :
  get_json L request = Ok data ->
  (forall d, data <> PyDict d) ->
  exists e,
    getitem data "image" = Raise e /\
    exc_type e = TypeError /\
    detect L request w = (Ok (jsonify (error_body (str e))), w).
Proof.
  intros Hjson Hnot.
  assert (Hget : exists e, getitem data "image" = Raise e /\ exc_type e = TypeError).
  { destruct data; try (eexists; split; reflexivity).
    exfalso. eapply Hnot. reflexivity. }
  destruct Hget as (e & Hget & Hty). exists e.
  split; [exact Hget|]. split; [exact Hty|].
  apply detect_of_try_raise. unfold detect_try.
  rewrite bind_lift, Hjson. cbv beta iota.
  rewrite bind_lift, Hget. reflexivity.
Qed.

Lemma detect_after_predict (request : Request) (im : Image)
    (preds : list (list spec_float)) (w : World) :
  valid_image_request L request im ->
  model_predict L (batch_of im) = Ok preds ->
  detect_try L request w =
    (row <- lift (first_row preds) ;;
     class_index <- lift (np_argmax row) ;;
     row' <- lift (first_row preds) ;;
     m <- lift (np_max row') ;;
     prediction <- lift (list_getitem class_labels class_index) ;;
     ret (jsonify (success_body prediction (float m)))) w.
Proof.
  intros Hvalid Hpred.
  destruct (valid_image_preprocess L request im Hvalid) as (d & v & Hjson & Hfield & Hpre).
  unfold detect_try.
  rewrite bind_lift, Hjson. cbv beta iota.
  rewrite bind_lift. unfold getitem. rewrite Hfield. cbv beta iota.
  rewrite bind_preprocess, Hpre. cbv beta iota.
  rewrite bind_lift, Hpred. reflexivity.
Qed.

(** X9: when the model has more outputs than there are labels and the
    largest one is at an index the label list does not have, the lookup
    [class_labels[class_index]] raises an [IndexError] and [detect] answers
    with the error body "list index out of range". *)
Theorem class_index_beyond_labels_is_an_error (request : Request) (im : Image)
    (preds : list (list spec_float)) (row : list spec_float) (i : nat) (w : World) :
  valid_image_request L request im ->
  model_predict L (batch_of im) = Ok preds ->
  first_row preds = Ok row ->
  np_argmax row = Ok i ->
  length class_labels <= i ->
  detect L request w = (Ok (jsonify (error_body "list index out of range")), w).
Proof.
  intros Hvalid Hpred Hrow Hi Hge.
  assert (Hne : row <> []) by (intros ->; discriminate Hi).
  destruct (argmax_holds_max row Hne) as (i' & m & Hi' & Hm & _).
  change "list index out of range" with (str (Exc IndexError "list index out of range")).
  apply detect_of_try_raise.
  rewrite (detect_after_predict request im preds w Hvalid Hpred).
  rewrite bind_lift, Hrow. cbv beta iota.
  rewrite bind_lift, Hi. cbv beta iota.
  rewrite bind_lift. cbv beta iota.
  rewrite bind_lift, Hm. cbv beta iota.
  rewrite bind_lift. unfold list_getitem.
  rewrite (lookup_ge_None_2 class_labels i Hge). reflexivity.
Qed.

(** X10: a model output without rows makes [preds[0]] raise an
    [IndexError], and an empty first row makes [np.argmax] raise a
    [ValueError]; in both cases [detect] answers with the error body carrying
    the text of the exception. *)
Theorem empty_model_output_is_an_error (request : Request) (im : Image)
    (preds : list (list spec_float)) (w : World) :
  valid_image_request L request im ->
  model_predict L (batch_of im) = Ok preds ->
  (preds = [] ->
   detect L request w =
     (Ok (jsonify (error_body "index 0 is out of bounds for axis 0 with size 0")), w)) /\
  (forall rest, preds = [] :: rest ->
   detect L request w =
     (Ok (jsonify (error_body "attempt to get argmax of an empty sequence")), w)).
Proof.
  intros Hvalid Hpred. split.
  - intros ->.
    change "index 0 is out of bounds for axis 0 with size 0"
      with (str (Exc IndexError "index 0 is out of bounds for axis 0 with size 0")).
    apply detect_of_try_raise.
    rewrite (detect_after_predict request im [] w Hvalid Hpred). reflexivity.
  - intros rest ->.
    change "attempt to get argmax of an empty sequence"
      with (str (Exc ValueError "attempt to get argmax of an empty sequence")).
    apply detect_of_try_raise.
    rewrite (detect_after_predict request im ([] :: rest) w Hvalid Hpred). reflexivity.
Qed.


End HandlerEdges.

Lemma SFleb_nan_l (x : spec_float) : SFleb S754_nan x = false.
Proof. reflexivity. Qed.

Lemma argmax_loop_first_nan (pre post : list spec_float) (mp : spec_float) (best i : nat) :
  is_nan mp = false ->
  Forall (fun x => is_nan x = false) pre ->
  argmax_loop mp best i (pre ++ S754_nan :: post) = i + length pre /\
  fold_left np_maximum (pre ++ S754_nan :: post) mp = S754_nan.
Proof.
  revert mp best i. induction pre as [|x pre IH]; intros mp best i Hmp Hpre; simpl.
  - rewrite Nat.add_0_r. split; [reflexivity|].
    unfold np_maximum at 2. rewrite SFleb_nan_l, Hmp. simpl. apply fold_maximum_nan.
  - inversion Hpre as [|? ? Hx Hpre']; subst.
    unfold np_maximum at 2. rewrite Hmp, orb_false_r.
    destruct (SFleb x mp); simpl.
    + destruct (IH mp best (S i) Hmp Hpre') as [-> ->]. split; [lia|reflexivity].
    + rewrite Hx. destruct (IH x i (S i) Hx Hpre') as [-> ->]. split; [lia|reflexivity].
Qed.


Section HandlerNumbers.
Variable L : Libs.

(** X12: a NaN among the outputs of the model reaches the client.
    [np.argmax] then selects the first NaN and [np.max] is NaN: when that
    index has a label, [detect] answers with status "success", that label,
    and NaN as confidence. *)
Theorem nan_output_reaches_the_response (request : Request) (im : Image)
    (preds : list (list spec_float)) (pre post : list spec_float)
    (label : string) (w : World) :
  valid_image_request L request im ->
  model_predict L (batch_of im) = Ok preds ->
  first_row preds = Ok (pre ++ S754_nan :: post) ->
  Forall (fun x => is_nan x = false) pre ->
  class_labels !! length pre = Some label ->
  np_argmax (pre ++ S754_nan :: post) = Ok (length pre) /\
  np_max (pre ++ S754_nan :: post) = Ok S754_nan /\
  detect L request w = (Ok (jsonify (success_body label S754_nan)), w).
Proof.
  intros Hvalid Hpred Hrow Hpre Hlabel.
  assert (Hi : np_argmax (pre ++ S754_nan :: post) = Ok (length pre)).
  { destruct pre as [|x pre]; [reflexivity|].
    inversion Hpre as [|? ? Hx Hpre']; subst. simpl. rewrite Hx.
    destruct (argmax_loop_first_nan pre post x 0 1 Hx Hpre') as [-> _]. reflexivity. }
  assert (Hm : np_max (pre ++ S754_nan :: post) = Ok S754_nan).
  { destruct pre as [|x pre]; [simpl; rewrite fold_maximum_nan; reflexivity|].
    inversion Hpre as [|? ? Hx Hpre']; subst. simpl.
    destruct (argmax_loop_first_nan pre post x 0 1 Hx Hpre') as [_ ->]. reflexivity. }
  split; [exact Hi|]. split; [exact Hm|].
  change (success_body label S754_nan) with (success_body label (float S754_nan)).
  apply (detect_on_row L request im preds (pre ++ S754_nan :: post)
           (length pre) S754_nan label w); assumption.
Qed.


(** X14: every response of [detect] has one of two forms.  Either its body
    has exactly the keys "status", "prediction" and "confidence", with status
    "success", a string and a float; or it has exactly the keys "status" and
    "message", with status "error" and a string.  An error never carries a
    prediction, a success never carries a message. *)
Theorem response_has_one_of_two_forms (request : Request) (w : World) :
  exists d,
    detect L request w = (Ok (mkResponse 200 (PyDict d)), w) /\
    ((d !! "status" = Some (PyStr "success") /\
      (exists label, d !! "prediction" = Some (PyStr label)) /\
      (exists c, d !! "confidence" = Some (PyFloat c)) /\
      dom d = {["status"; "prediction"; "confidence"]}) \/
     (d !! "status" = Some (PyStr "error") /\
      (exists text, d !! "message" = Some (PyStr text)) /\
      dom d = {["status"; "message"]})).
Proof.
  destruct (detect_try_outcome L request w) as [[e H]|(p & c & H)].
  - exists (error_body (str e)). split; [apply detect_of_try_raise; exact H|].
    right. unfold error_body.
    split; [apply lookup_insert_eq|].
    split; [eexists; rewrite lookup_insert_ne by discriminate; apply lookup_insert_eq|].
    rewrite !dom_insert_L, dom_empty_L. set_solver.
  - exists (success_body p c). split; [apply detect_of_try_ok; exact H|].
    left. unfold success_body.
    split; [apply lookup_insert_eq|].
    split; [eexists; rewrite lookup_insert_ne by discriminate; apply lookup_insert_eq|].
    split; [eexists; rewrite !lookup_insert_ne by discriminate; apply lookup_insert_eq|].
    rewrite !dom_insert_L, dom_empty_L. set_solver.
Qed.

End HandlerNumbers.

Lemma scaling_is_monotone_holds :
  forallb (fun a =>
    forallb (fun b => implb (a <? b)%Z (SFltb (scale_pixel a) (scale_pixel b)))
            pixel_values)
    pixel_values = true.
Proof. vm_compute. reflexivity. Qed.

Lemma byte_is_pixel_value (b : Byte.byte) : In (Z.of_N (Byte.to_N b)) pixel_values.
Proof.
  unfold pixel_values. apply in_map_iff.
  exists (N.to_nat (Byte.to_N b)). split; [lia|].
  apply in_seq. pose proof (Byte.to_N_bounded b). lia.
Qed.

Lemma scale_pixel_lt (a b : Z) :
  In a pixel_values -> In b pixel_values -> (a < b)%Z ->
  SFltb (scale_pixel a) (scale_pixel b) = true.
Proof.
  intros Ha Hb Hlt.
  pose proof (proj1 (forallb_forall _ pixel_values) scaling_is_monotone_holds a Ha) as H1.
  pose proof (proj1 (forallb_forall _ pixel_values) H1 b Hb) as H2.
  cbv beta in H2. apply Z.ltb_lt in Hlt. rewrite Hlt in H2. exact H2.
Qed.

Lemma scale_pixel_ends : scale_pixel 0 = f32_zero /\ scale_pixel 255 = f32_one.
Proof. split; vm_compute; reflexivity. Qed.

(** X15: dividing by 255 in float32 keeps the order of the pixel values: of
    two bands of the resized image, the one with the smaller value has the
    strictly smaller element in the batch, equal values give equal elements,
    and the values 0 and 255 give exactly 0.0 and 1.0. *)
Theorem scaling_keeps_pixel_order (im : Image) (y x c y' x' c' : nat) :
  mode im = "RGB" -> size im = (224, 224) ->
  y < 224 -> x < 224 -> c < 3 -> y' < 224 -> x' < 224 -> c' < 3 ->
  exists p q,
    at4 (batch_of im) 0 y x c = Some p /\
    at4 (batch_of im) 0 y' x' c' = Some q /\
    ((Byte.to_N (getpixel im x y c) < Byte.to_N (getpixel im x' y' c'))%N ->
     SFltb p q = true) /\
    (getpixel im x y c = getpixel im x' y' c' -> p = q) /\
    (getpixel im x y c = Byte.x00 -> p = f32_zero) /\
    (getpixel im x y c = Byte.xff -> p = f32_one).
Proof.
  intros Hm Hs Hy Hx Hc Hy' Hx' Hc'.
  destruct (batch_values im Hm Hs) as [_ Hat].
  exists (scale_pixel (Z.of_N (Byte.to_N (getpixel im x y c)))),
         (scale_pixel (Z.of_N (Byte.to_N (getpixel im x' y' c')))).
  split; [apply Hat; assumption|]. split; [apply Hat; assumption|].
  split; [|split; [|split]].
  - intros Hlt. apply scale_pixel_lt; [apply byte_is_pixel_value..|lia].
  - intros ->. reflexivity.
  - intros ->. apply scale_pixel_ends.
  - intros ->. apply scale_pixel_ends.
Qed.

(* ================================================================== *)
(** * Start-up *)
(* ================================================================== *)

Section StartUp.
Variable H : Host.

Lemma get_local_ip_value (w : World) :
  get_local_ip H w =
    (Ok match gethostname H with
        | Ok name =>
            match gethostbyname H name with
            | Ok addr => addr
            | Raise _ => "127.0.0.1"
            end
        | Raise _ => "127.0.0.1"
        end, w).
Proof.
  unfold get_local_ip, try_except. rewrite bind_lift.
  destruct (gethostname H) as [name|e]; [|reflexivity].
  unfold lift. destruct (gethostbyname H name); reflexivity.
Qed.

Lemma main_value (w : World) :
  main H w =
    (Ok (" * Running on https://" +:+
         match gethostname H with
         | Ok name =>
             match gethostbyname H name with
             | Ok addr => addr
             | Raise _ => "127.0.0.1"
             end
         | Raise _ => "127.0.0.1"
         end +:+ ":5000",
         mkAppRun true "0.0.0.0" 5000 ("cert.pem", "key.pem")), w).
Proof. unfold main, bind. rewrite get_local_ip_value. reflexivity. Qed.

(** X16: [main] never fails because of name resolution.  [get_local_ip]
    returns the address the resolver gives for the host name, and
    "127.0.0.1" when [gethostname] or [gethostbyname] raises; [main] prints
    the banner with that address and port 5000 and calls [app.run] with the
    same arguments in both cases: all interfaces, port 5000, debug mode, the
    two PEM files. *)
Theorem main_survives_failed_resolution (w : World) :
  exists ip,
    get_local_ip H w = (Ok ip, w) /\
    main H w =
      (Ok (" * Running on https://" +:+ ip +:+ ":5000",
           mkAppRun true "0.0.0.0" 5000 ("cert.pem", "key.pem")), w) /\
    (forall name addr,
       gethostname H = Ok name -> gethostbyname H name = Ok addr -> ip = addr) /\
    ((exists e, gethostname H = Raise e) \/
     (exists name e, gethostname H = Ok name /\ gethostbyname H name = Raise e) ->
     ip = "127.0.0.1").
Proof.
  eexists. split; [apply get_local_ip_value|].
  split; [apply main_value|].
  split.
  - intros name addr Hn Ha. rewrite Hn, Ha. reflexivity.
  - intros [[e He]|(name & e & Hn & He)].
    + rewrite He. reflexivity.
    + rewrite Hn, He. reflexivity.
Qed.

Variable P : Platform.

(** X17: when the script gets as far as [app.run], the two files it names
    as TLS context exist: the import has loaded the model, and the
    provisioning of lines 69-70 has returned normally and left both
    [cert.pem] and [key.pem] on disk, whatever the directory held at the
    start. *)
Theorem server_starts_with_certificate_files (w w' : World) (banner : string) (run : AppRun) :
  run_script H P w = (Ok (banner, run), w') ->
  run_ssl_context run = ("cert.pem", "key.pem") /\
  is_Some (files w' !! fst (run_ssl_context run)) /\
  is_Some (files w' !! snd (run_ssl_context run)) /\
  ensure_certificate P w = (Ok tt, w') /\
  exists model, load_model H "mask-detector-model.h5" = Ok model.
Proof.
  unfold run_script, import_module.
  rewrite bind_assoc, bind_lift.
  destruct (load_model H "mask-detector-model.h5") as [model|e]; [|discriminate].
  rewrite bind_assoc. unfold bind at 1.
  destruct (ensure_certificate P w) as [[[]|e] w1] eqn:Hens; [|discriminate].
  rewrite bind_ret.
  rewrite main_value. intros Hrun. inversion Hrun; subst. cbn [run_ssl_context fst snd].
  destruct (ensure_ok_both_exist P w w' Hens) as (Hc & Hk).
  split; [reflexivity|]. split; [exact Hc|]. split; [exact Hk|].
  split; [reflexivity|]. exists model. reflexivity.
Qed.

(** X18: the script stops at the first failure of its import.  When the
    model cannot be loaded, the exception ends the script before the
    provisioning: no file is written and neither the clock nor the entropy
    source is read.  When the model is loaded and the provisioning raises,
    that exception ends the script and [app.run] is not reached. *)
Theorem failed_import_stops_the_script (w : World) :
  (forall e, load_model H "mask-detector-model.h5" = Raise e ->
     run_script H P w = (Raise e, w)) /\
  (forall model e w1,
     load_model H "mask-detector-model.h5" = Ok model ->
     ensure_certificate P w = (Raise e, w1) ->
     run_script H P w = (Raise e, w1)).
Proof.
  split.
  - intros e Hload. unfold run_script, import_module.
    rewrite bind_assoc, bind_lift, Hload. reflexivity.
  - intros model e w1 Hload Hens. unfold run_script, import_module.
    rewrite bind_assoc, bind_lift, Hload. cbv beta iota.
    rewrite bind_assoc. unfold bind at 1. rewrite Hens. reflexivity.
Qed.

End StartUp.

(* ================================================================== *)
(** * The edges on concrete platforms, worlds and libraries *)
(* ================================================================== *)

Lemma provisioning_touches_only_its_files_witness :
  files (snd (ensure_certificate (failing_platform (CallLib "sign") sign_failure)
                model_file_world)) !! "mask-detector-model.h5" =
    files model_file_world !! "mask-detector-model.h5" /\
  files (snd (generate_self_signed_cert (failing_platform (CallLib "sign") sign_failure)
                "cert.pem" "key.pem" model_file_world)) !! "mask-detector-model.h5" =
    files model_file_world !! "mask-detector-model.h5".
Proof.
  apply (provisioning_touches_only_its_files
           (failing_platform (CallLib "sign") sign_failure)
           "mask-detector-model.h5" model_file_world).
  - discriminate.
  - discriminate.
Defined.

Lemma failure_before_key_file_changes_nothing_witness :
  fst (generate_self_signed_cert (failing_platform (OpenFile "key.pem") permission_denied)
         "cert.pem" "key.pem" cert_only_world) = Raise permission_denied /\
  files (snd (generate_self_signed_cert
                (failing_platform (OpenFile "key.pem") permission_denied)
                "cert.pem" "key.pem" cert_only_world)) = files cert_only_world.
Proof.
  apply (failure_before_key_file_changes_nothing
           (failing_platform (OpenFile "key.pem") permission_denied)
           "cert.pem" "key.pem" cert_only_world permission_denied).
  vm_compute. reflexivity.
Defined.

Lemma failed_key_write_truncates_key_file_witness :
  fst (generate_self_signed_cert (failing_platform (WriteFile "key.pem") disk_full)
         "cert.pem" "key.pem" key_only_world) = Raise disk_full /\
  files (snd (generate_self_signed_cert (failing_platform (WriteFile "key.pem") disk_full)
                "cert.pem" "key.pem" key_only_world)) !! "key.pem" = Some (Bytes []) /\
  files (snd (generate_self_signed_cert (failing_platform (WriteFile "key.pem") disk_full)
                "cert.pem" "key.pem" key_only_world)) !! "cert.pem" =
    files key_only_world !! "cert.pem".
Proof.
  apply (failed_key_write_truncates_key_file
           (failing_platform (WriteFile "key.pem") disk_full)
           "cert.pem" "key.pem" key_only_world disk_full).
  - discriminate.
  - vm_compute. reflexivity.
  - vm_compute. reflexivity.
Defined.

Lemma empty_certificate_is_never_repaired_witness :
  fst (ensure_certificate (failing_platform (WriteFile "cert.pem") disk_full) empty_world) =
    Raise disk_full /\
  files (snd (ensure_certificate (failing_platform (WriteFile "cert.pem") disk_full)
                empty_world)) !! "cert.pem" = Some (Bytes []) /\
  files (snd (ensure_certificate (failing_platform (WriteFile "cert.pem") disk_full)
                empty_world)) !! "key.pem" =
    Some (KeyBytes (fresh_key (failing_platform (WriteFile "cert.pem") disk_full) empty_world)
            PEM TraditionalOpenSSL NoEncryption) /\
  ensure_certificate ticking_platform
    (snd (ensure_certificate (failing_platform (WriteFile "cert.pem") disk_full) empty_world)) =
    (Ok tt, snd (ensure_certificate (failing_platform (WriteFile "cert.pem") disk_full)
                   empty_world)).
Proof.
  apply (empty_certificate_is_never_repaired
           (failing_platform (WriteFile "cert.pem") disk_full)
           empty_world disk_full ticking_platform).
  - left. reflexivity.
  - vm_compute. reflexivity.
  - vm_compute. reflexivity.
Defined.

Lemma completed_provisioning_is_stable_witness :
  let w' := snd (ensure_certificate ticking_platform cert_only_world) in
  is_Some (files w' !! "cert.pem") /\
  is_Some (files w' !! "key.pem") /\
  ensure_certificate (failing_platform (CallLib "sign") sign_failure) w' = (Ok tt, w').
Proof.
  intros w'.
  apply (completed_provisioning_is_stable ticking_platform cert_only_world w'
           (failing_platform (CallLib "sign") sign_failure)).
  vm_compute. reflexivity.
Defined.

Lemma certificate_valid_at_least_365_days_witness :
  exists cert w',
    ensure_certificate ticking_platform empty_world = (Ok tt, w') /\
    files w' !! "cert.pem" = Some (CertBytes cert PEM) /\
    (not_valid_before_of cert <= clock ticking_platform (clock_reads empty_world))%Z /\
    (timedelta_days 365 <= not_valid_after_of cert - not_valid_before_of cert)%Z /\
    (not_valid_after_of cert <=
       clock ticking_platform (S (clock_reads empty_world)) + timedelta_days 365)%Z.
Proof.
  apply (certificate_valid_at_least_365_days ticking_platform empty_world).
  - left. reflexivity.
  - intros s. reflexivity.
  - vm_compute. discriminate.
Defined.

Lemma body_not_an_object_is_an_error_witness :
  exists e,
    getitem (PyList [PyStr "yA=="]) "image" = Raise e /\
    exc_type e = TypeError /\
    detect (with_json demo_libs (PyList [PyStr "yA=="])) demo_request empty_world =
      (Ok (jsonify (error_body (str e))), empty_world).
Proof.
  apply (body_not_an_object_is_an_error (with_json demo_libs (PyList [PyStr "yA=="]))
           demo_request (PyList [PyStr "yA=="]) empty_world).
  - reflexivity.
  - intros d. discriminate.
Defined.

Lemma class_index_beyond_labels_is_an_error_witness :
  detect (with_model demo_libs (fun _ => Ok [three_class_row])) demo_request empty_world =
    (Ok (jsonify (error_body "list index out of range")), empty_world).
Proof.
  apply (class_index_beyond_labels_is_an_error
           (with_model demo_libs (fun _ => Ok [three_class_row]))
           demo_request demo_resized [three_class_row] three_class_row 2 empty_world).
  - exists (<["image" := PyStr "yA=="]> ∅), (PyStr "yA=="), [Byte.xc8], demo_opened, demo_rgb.
    repeat split; vm_compute; reflexivity.
  - reflexivity.
  - reflexivity.
  - vm_compute. reflexivity.
  - vm_compute. lia.
Defined.

Lemma empty_model_output_is_an_error_witness :
  detect (with_model demo_libs (fun _ => Ok [])) demo_request empty_world =
    (Ok (jsonify (error_body "index 0 is out of bounds for axis 0 with size 0")),
     empty_world).
Proof.
  apply (proj1 (empty_model_output_is_an_error
                  (with_model demo_libs (fun _ => Ok []))
                  demo_request demo_resized [] empty_world
                  ltac:(exists (<["image" := PyStr "yA=="]> ∅), (PyStr "yA=="),
                               [Byte.xc8], demo_opened, demo_rgb;
                        repeat split; vm_compute; reflexivity)
                  eq_refl)).
  reflexivity.
Defined.


Lemma nan_output_reaches_the_response_witness :
  np_argmax ([S754_finite false 8388608 (-25)] ++ S754_nan :: []) = Ok 1 /\
  np_max ([S754_finite false 8388608 (-25)] ++ S754_nan :: []) = Ok S754_nan /\
  detect (with_model demo_libs (fun _ => Ok [[S754_finite false 8388608 (-25); S754_nan]]))
    demo_request empty_world =
    (Ok (jsonify (success_body "no_mask" S754_nan)), empty_world).
Proof.
  apply (nan_output_reaches_the_response
           (with_model demo_libs (fun _ => Ok [[S754_finite false 8388608 (-25); S754_nan]]))
           demo_request demo_resized [[S754_finite false 8388608 (-25); S754_nan]]
           [S754_finite false 8388608 (-25)] [] "no_mask" empty_world).
  - exists (<["image" := PyStr "yA=="]> ∅), (PyStr "yA=="), [Byte.xc8], demo_opened, demo_rgb.
    repeat split; vm_compute; reflexivity.
  - reflexivity.
  - reflexivity.
  - repeat constructor.
  - reflexivity.
Defined.


Lemma scaling_keeps_pixel_order_witness :
  exists p q,
    at4 (batch_of demo_resized) 0 3 4 0 = Some p /\
    at4 (batch_of demo_resized) 0 5 6 2 = Some q /\
    ((Byte.to_N (getpixel demo_resized 4 3 0) < Byte.to_N (getpixel demo_resized 6 5 2))%N ->
     SFltb p q = true) /\
    (getpixel demo_resized 4 3 0 = getpixel demo_resized 6 5 2 -> p = q) /\
    (getpixel demo_resized 4 3 0 = Byte.x00 -> p = f32_zero) /\
    (getpixel demo_resized 4 3 0 = Byte.xff -> p = f32_one).
Proof.
  apply (scaling_keeps_pixel_order demo_resized 3 4 0 5 6 2); try reflexivity; lia.
Defined.

Lemma server_starts_with_certificate_files_witness :
  let w' := snd (run_script resolving_host ticking_platform empty_world) in
  is_Some (files w' !! "cert.pem") /\ is_Some (files w' !! "key.pem").
Proof.
  intros w'.
  destruct (server_starts_with_certificate_files resolving_host ticking_platform
              empty_world w' " * Running on https://192.168.1.20:5000"
              (mkAppRun true "0.0.0.0" 5000 ("cert.pem", "key.pem")))
    as (_ & Hc & Hk & _).
  - vm_compute. reflexivity.
  - split; [exact Hc|exact Hk].
Defined.
